(** * Verification of the waste-bin QR code generator
    (scripts/generate_bin_qr_codes.py)

    The script builds, for a static list of sample locations and waste
    categories, one JSON payload per bin, hands it to a QR library, writes the
    image to the output directory and finally writes a JSON manifest.

    The embedding below follows the script method by method.  Python values
    that end up in JSON are association lists (dict insertion order decides
    the serialized bytes), the file system is a finite map from paths to
    contents, and the effects of the script (clock readings, file writes,
    console output, exceptions) are threaded through a state-and-error monad. *)

From Stdlib Require Import ZArith QArith Qabs Lqa Lia List Ascii String FinFun.
From Stdlib Require Import DecimalString DecimalN DecimalPos.
From stdpp Require Import gmap strings.

Import ListNotations.
Local Open Scope string_scope.
Local Open Scope Z_scope.

(** ** Python strings

    A [str] is modelled by a Rocq [string]; every string the script itself
    builds is ASCII. *)

Module PyStr.

Definition is_lower (c : ascii) : bool :=
  (97 <=? nat_of_ascii c)%nat && (nat_of_ascii c <=? 122)%nat.

Definition is_upper (c : ascii) : bool :=
  (65 <=? nat_of_ascii c)%nat && (nat_of_ascii c <=? 90)%nat.

Definition upper_char (c : ascii) : ascii :=
  if is_lower c then ascii_of_nat (nat_of_ascii c - 32) else c.

Definition lower_char (c : ascii) : ascii :=
  if is_upper c then ascii_of_nat (nat_of_ascii c + 32) else c.

Fixpoint map_chars (f : ascii -> ascii) (s : string) : string :=
  match s with
  | EmptyString => EmptyString
  | String c s' => String (f c) (map_chars f s')
  end.

(** [s.upper()] and [s.lower()] on ASCII text. *)
Definition upper : string -> string := map_chars upper_char.
Definition lower : string -> string := map_chars lower_char.

(** [s.replace(a, b)] for one-character [a] and [b]. *)
Definition replace (a b : ascii) : string -> string :=
  map_chars (fun c => if Ascii.eqb c a then b else c).

Definition startswith (s : string) (c : ascii) : bool :=
  match s with
  | String c' _ => Ascii.eqb c' c
  | EmptyString => false
  end.

Fixpoint endswith (s : string) (c : ascii) : bool :=
  match s with
  | EmptyString => false
  | String c' EmptyString => Ascii.eqb c' c
  | String _ s' => endswith s' c
  end.

Fixpoint repeat_char (c : ascii) (n : nat) : string :=
  match n with
  | O => EmptyString
  | S n' => String c (repeat_char c n')
  end.

Fixpoint join (sep : string) (l : list string) : string :=
  match l with
  | [] => ""
  | [x] => x
  | x :: l' => x ++ sep ++ join sep l'
  end.

(** [str(n)] for a non-negative integer. *)
Definition of_N (n : N) : string := NilZero.string_of_uint (N.to_uint n).

(** [str(z)] for an integer. *)
Definition of_Z (z : Z) : string :=
  if z <? 0 then "-" ++ of_N (Z.abs_N z) else of_N (Z.abs_N z).

(** [f"{z:03d}"]: sign first, then zeros up to a total width of three. *)
Definition format_03d (z : Z) : string :=
  let digits := of_N (Z.abs_N z) in
  let sign := if z <? 0 then "-" else "" in
  sign ++ repeat_char "0" (3 - String.length sign - String.length digits)
       ++ digits.

End PyStr.

(** [posixpath.join(a, b)]. *)
Definition os_path_join (a b : string) : string :=
  if PyStr.startswith b "/" then b
  else if orb (String.eqb a "") (PyStr.endswith a "/") then a ++ b
  else a ++ "/" ++ b.

(** ** Python values that reach JSON

    Floats are modelled by the exact rational they denote.  The coordinates
    in the script are short decimal literals, for which [repr] prints the
    finite decimal expansion; [float_repr] computes that expansion. *)

#[warnings="-register-all"] Inductive pyval :=
| PyStr (s : string)
| PyInt (z : Z)
| PyFloat (q : Q)
| PyList (l : list pyval)
| PyDict (d : list (string * pyval)).

(** A dict is an association list in insertion order. *)
Definition pydict := list (string * pyval).

Module Dict.

Fixpoint get (k : string) (d : pydict) : option pyval :=
  match d with
  | [] => None
  | (k', v) :: d' => if String.eqb k' k then Some v else get k d'
  end.

(** [d[k] = v]: an existing key keeps its position, a new key goes last. *)
Fixpoint set (k : string) (v : pyval) (d : pydict) : pydict :=
  match d with
  | [] => [(k, v)]
  | (k', v') :: d' =>
      if String.eqb k' k then (k', v) :: d' else (k', v') :: set k v d'
  end.

(** [{**d, k1: v1, ...}]. *)
Definition update (d extra : pydict) : pydict :=
  fold_left (fun acc kv => set (fst kv) (snd kv) acc) extra d.

End Dict.

Module Json.

Definition dquote : ascii := "034"%char.
Definition backslash : ascii := "092"%char.

Definition hex_digit (n : nat) : ascii :=
  if (n <? 10)%nat then ascii_of_nat (48 + n) else ascii_of_nat (87 + n).

(** One character of [py_encode_basestring_ascii]. *)
Definition escape_char (c : ascii) : string :=
  let n := nat_of_ascii c in
  if Ascii.eqb c dquote then String backslash (String dquote "")
  else if Ascii.eqb c backslash then String backslash (String backslash "")
  else if (n =? 10)%nat then String backslash "n"
  else if (n =? 13)%nat then String backslash "r"
  else if (n =? 9)%nat then String backslash "t"
  else if (n =? 12)%nat then String backslash "f"
  else if (n =? 8)%nat then String backslash "b"
  else if (32 <=? n)%nat && (n <=? 126)%nat then String c ""
  else String backslash
         (String "u" (String "0" (String "0"
            (String (hex_digit (n / 16)) (String (hex_digit (n mod 16)) ""))))).

Fixpoint escape (s : string) : string :=
  match s with
  | EmptyString => EmptyString
  | String c s' => escape_char c ++ escape s'
  end.

Definition encode_str (s : string) : string :=
  String dquote (escape s ++ String dquote "").

(** Fractional digits of [r / d] (with [0 <= r < d]), at most [fuel]. *)
Fixpoint frac_digits (fuel : nat) (r d : Z) : string :=
  match fuel with
  | O => ""
  | S fuel' =>
      if r =? 0 then ""
      else String (ascii_of_nat (48 + Z.to_nat (r * 10 / d)))
                  (frac_digits fuel' (r * 10 mod d) d)
  end.

(** [float.__repr__] on a float with a short finite decimal expansion. *)
Definition float_repr (q : Q) : string :=
  let n := Z.abs (Qnum q) in
  let d := Z.pos (Qden q) in
  let frac := frac_digits 17 (n mod d) d in
  (if Qnum q <? 0 then "-" else "")
    ++ PyStr.of_N (Z.to_N (n / d)) ++ "."
    ++ (if String.eqb frac "" then "0" else frac).

Definition newline : string := String "010"%char "".

Section Encoder.
(** [indent], [item_separator] and [key_separator] of [JSONEncoder]. *)
Variable indent : option nat.
Variable item_sep key_sep : string.

Definition newline_indent (level : nat) : string :=
  match indent with
  | Some n => newline ++ PyStr.repeat_char " " (n * level)
  | None => ""
  end.

Definition wrap (open close : string) (level : nat) (items : list string)
  : string :=
  match items with
  | [] => open ++ close
  | _ => open ++ newline_indent (S level)
           ++ PyStr.join (item_sep ++ newline_indent (S level)) items
           ++ newline_indent level ++ close
  end.

Fixpoint encode (level : nat) (v : pyval) : string :=
  match v with
  | PyStr s => encode_str s
  | PyInt z => PyStr.of_Z z
  | PyFloat q => float_repr q
  | PyList l => wrap "[" "]" level (map (encode (S level)) l)
  | PyDict d =>
      wrap "{" "}" level
        (map (fun kv => encode_str (fst kv) ++ key_sep
                          ++ encode (S level) (snd kv)) d)
  end.
End Encoder.

(** [json.dumps(v, separators=(',', ':'))]. *)
Definition dumps_compact (v : pyval) : string := encode None "," ":" 0 v.

(** [json.dump(v, f, indent=2)]. *)
Definition dumps_indent2 (v : pyval) : string := encode (Some 2%nat) "," ": " 0 v.

End Json.

(** ** The geohash library *)

(** Modelled from the spec: the geohash library ([import geohash2 as geohash])
    is a third-party dependency whose code is not under src/.  The spec's
    glossary describes a geohash as a short string encoding of a
    latitude/longitude pair into a hierarchical spatial grid cell; the model
    is the library's bisection over [-90, 90] x [-180, 180], longitude bit
    first, five bits per base-32 character.  Every midpoint is a dyadic
    fraction of 90 or 180, so the comparisons on floats agree with the
    comparisons on the rationals they denote. *)
Module Geohash.

Local Open Scope Q_scope.

Definition base32 : string := "0123456789bcdefghjkmnpqrstuvwxyz".

Definition base32_char (ch : N) : ascii :=
  match String.get (N.to_nat ch) base32 with
  | Some c => c
  | None => "0"%char
  end.

Fixpoint index_of (c : ascii) (s : string) (i : N) : option N :=
  match s with
  | EmptyString => None
  | String c' s' => if Ascii.eqb c' c then Some i else index_of c s' (N.succ i)
  end.

(** [__decodemap]: a character outside the alphabet is a [KeyError]. *)
Definition decodemap (c : ascii) : option N := index_of c base32 0%N.

Definition bits : list N := [16; 8; 4; 2; 1]%N.

Definition Qgt_bool (a b : Q) : bool := negb (Qle_bool a b).

Definition mid (i : Q * Q) : Q := (fst i + snd i) / 2.

(** One bisection: the comparison result and the half that is kept. *)
Definition upper_half (i : Q * Q) : Q * Q := (mid i, snd i).
Definition lower_half (i : Q * Q) : Q * Q := (fst i, mid i).

Record enc_state := {
  lat_interval : Q * Q;
  lon_interval : Q * Q;
  geohash : string;
  bit : nat;
  ch : N;
  even : bool
}.

Definition enc_init : enc_state :=
  {| lat_interval := (-90, 90); lon_interval := (-180, 180);
     geohash := ""; bit := 0; ch := 0%N; even := true |}.

(** One iteration of the [while] loop of [encode]. *)
Definition encode_step (latitude longitude : Q) (st : enc_state) : enc_state :=
  let x := if even st then longitude else latitude in
  let i := if even st then lon_interval st else lat_interval st in
  let above := Qgt_bool x (mid i) in
  let ch' := if above then N.lor (ch st) (nth (bit st) bits 0%N) else ch st in
  let i' := if above then upper_half i else lower_half i in
  let lat' := if even st then lat_interval st else i' in
  let lon' := if even st then i' else lon_interval st in
  if (bit st <? 4)%nat then
    {| lat_interval := lat'; lon_interval := lon'; geohash := geohash st;
       bit := S (bit st); ch := ch'; even := negb (even st) |}
  else
    {| lat_interval := lat'; lon_interval := lon';
       geohash := (geohash st ++ String (base32_char ch') "")%string;
       bit := 0; ch := 0%N; even := negb (even st) |}.

(** [while len(geohash) < precision: ...], with the iteration count made
    explicit. *)
Fixpoint encode_loop (fuel : nat) (latitude longitude : Q) (precision : nat)
    (st : enc_state) : enc_state :=
  match fuel with
  | O => st
  | S fuel' =>
      if (String.length (geohash st) <? precision)%nat
      then encode_loop fuel' latitude longitude precision
             (encode_step latitude longitude st)
      else st
  end.

(** Modelled from the spec: [geohash.encode(latitude, longitude, precision)]
    of the geohash library, whose code is not under src/.  Five iterations
    per character are enough for the loop to end. *)
Definition encode (latitude longitude : Q) (precision : nat) : string :=
  geohash (encode_loop (5 * precision) latitude longitude precision enc_init).

Record dec_state := {
  d_lat_interval : Q * Q;
  d_lon_interval : Q * Q;
  lat_err : Q;
  lon_err : Q;
  is_even : bool
}.

Definition dec_init : dec_state :=
  {| d_lat_interval := (-90, 90); d_lon_interval := (-180, 180);
     lat_err := 90; lon_err := 180; is_even := true |}.

(** The body of [for mask in [16, 8, 4, 2, 1]]. *)
Definition decode_bit (cd mask : N) (st : dec_state) : dec_state :=
  let set := negb (N.eqb (N.land cd mask) 0) in
  if is_even st then
    {| d_lat_interval := d_lat_interval st;
       d_lon_interval := if set then upper_half (d_lon_interval st)
                         else lower_half (d_lon_interval st);
       lat_err := lat_err st; lon_err := lon_err st / 2;
       is_even := false |}
  else
    {| d_lat_interval := if set then upper_half (d_lat_interval st)
                         else lower_half (d_lat_interval st);
       d_lon_interval := d_lon_interval st;
       lat_err := lat_err st / 2; lon_err := lon_err st;
       is_even := true |}.

Definition decode_char (cd : N) (st : dec_state) : dec_state :=
  fold_left (fun s mask => decode_bit cd mask s) bits st.

Fixpoint decode_chars (s : string) (st : dec_state) : option dec_state :=
  match s with
  | EmptyString => Some st
  | String c s' =>
      match decodemap c with
      | Some cd => decode_chars s' (decode_char cd st)
      | None => None
      end
  end.

(** Modelled from the spec: [geohash.decode_exactly(s)] of the geohash
    library, whose code is not under src/: the centre of the cell and the
    half-width of the cell in each direction, [(lat, lon, lat_err, lon_err)]. *)
Definition decode_exactly (s : string) : option (Q * Q * Q * Q) :=
  match decode_chars s dec_init with
  | Some st => Some (mid (d_lat_interval st), mid (d_lon_interval st),
                     lat_err st, lon_err st)
  | None => None
  end.

End Geohash.

(** ** Effects: the world the script runs in *)

(** An exception in flight.  [except Exception] catches the first kind only;
    [SystemExit] is what [argparse] raises on a bad command line. *)
Inductive exn :=
| Exception (msg : string)
| SystemExit (code : Z).

Inductive result (A : Type) :=
| Ok (a : A)
| Raise (e : exn).

Arguments Ok {A} a.
Arguments Raise {A} e.

(** What the script does to the outside, in order. *)
Inductive event :=
| EvPrint (line : string)
| EvMakedirs (path : string)
| EvQrData (data : string)
| EvWrite (path content : string).

Record World := {
  files : gmap string string;   (* regular files: path to content *)
  dirs : gset string;           (* directories *)
  ticks : nat;                  (* clock readings made so far *)
  trace : list event
}.

(** Command-line arguments after parsing. *)
Record Args := {
  arg_output_dir : string;
  arg_format : string;
  arg_test_only : bool;
  arg_count : Z
}.

(** Defaults of the four [add_argument] calls. *)
Definition default_args : Args :=
  {| arg_output_dir := "./qr_codes"; arg_format := "PNG";
     arg_test_only := false; arg_count := 5 |}.

(** The libraries and the operating system, as far as the script can observe
    them:
    - [clock k] is what the [k]-th reading of the clock returns;
    - [qr_image data path] is what the QR and image libraries do with [data]
      for the file name [path]: the bytes they save ([inl]) or the message of
      the exception they raise ([inr]);
    - [os_error path] is the message of the error the operating system
      reports when [path] is created or written, if any;
    - [parse_args argv] is what [argparse] makes of the command line: the
      namespace ([inl]) or the status it exits with ([inr]). *)
Record Env := {
  clock : nat -> string;
  qr_image : string -> string -> string + string;
  os_error : string -> option string;
  parse_args : list string -> Args + Z
}.

Definition M (A : Type) : Type := World -> result A * World.

Definition ret {A} (a : A) : M A := fun w => (Ok a, w).

Definition bind {A B} (m : M A) (k : A -> M B) : M B :=
  fun w => match m w with
           | (Ok a, w') => k a w'
           | (Raise e, w') => (Raise e, w')
           end.

Definition raise {A} (e : exn) : M A := fun w => (Raise e, w).

(** [try: body except Exception as e: handler(str(e))]. *)
Definition try_except {A} (body : M A) (handler : string -> M A) : M A :=
  fun w => match body w with
           | (Raise (Exception msg), w') => handler msg w'
           | r => r
           end.

Notation "'do' x <- m ; k" := (bind m (fun x => k))
  (at level 10, x name, m at level 100, k at level 200).
Notation "'run' m ; k" := (bind m (fun _ => k))
  (at level 10, m at level 100, k at level 200).

Definition emit (e : event) : M unit :=
  fun w => (Ok tt, {| files := files w; dirs := dirs w; ticks := ticks w;
                      trace := trace w ++ [e] |}).

Definition print (line : string) : M unit := emit (EvPrint line).

(** Monadic left fold: a [for] loop that updates an accumulator and stops at
    the first exception. *)
Fixpoint foldM {A B} (body : B -> A -> M B) (xs : list A) (acc : B) : M B :=
  match xs with
  | [] => ret acc
  | x :: xs' => do acc' <- body acc x; foldM body xs' acc'
  end.

(** [l[i]]. *)
Definition list_index {A} (l : list A) (i : nat) : M A :=
  match nth_error l i with
  | Some x => ret x
  | None => raise (Exception "list index out of range")
  end.

(** [range(n)] for an integer [n]: empty when [n <= 0]. *)
Definition range (n : Z) : list nat := seq 0 (Z.to_nat n).

(** [enumerate(l)]. *)
Definition enumerate {A} (l : list A) : list (nat * A) :=
  combine (seq 0 (length l)) l.

Section System.

Variable env : Env.

(** [datetime.utcnow().isoformat()]. *)
Definition utcnow_isoformat : M string :=
  fun w => (Ok (clock env (ticks w)),
            {| files := files w; dirs := dirs w; ticks := S (ticks w);
               trace := trace w |}).

(** [os.path.exists(p)]. *)
Definition os_path_exists (p : string) : M bool :=
  fun w => (Ok (match files w !! p with
                | Some _ => true
                | None => bool_decide (p ∈ dirs w)
                end), w).

(** [os.makedirs(p)]. *)
Definition os_makedirs (p : string) : M unit :=
  match os_error env p with
  | Some msg => raise (Exception msg)
  | None =>
      fun w => (Ok tt, {| files := files w; dirs := {[p]} ∪ dirs w;
                          ticks := ticks w;
                          trace := trace w ++ [EvMakedirs p] |})
  end.

(** Creating or truncating the file at [p] and writing [content] to it. *)
Definition write_file (p content : string) : M unit :=
  match os_error env p with
  | Some msg => raise (Exception msg)
  | None =>
      fun w => (Ok tt, {| files := <[p := content]> (files w);
                          dirs := dirs w; ticks := ticks w;
                          trace := trace w ++ [EvWrite p content] |})
  end.

(** [qr.add_data(data); qr.make(fit=True); qr.make_image(...)] and the
    encoding of the image for the extension of [path]. *)
Definition qr_make_image (data path : string) : M string :=
  match qr_image env data path with
  | inl img => ret img
  | inr msg => raise (Exception msg)
  end.

(** [parser.parse_args()]. *)
Definition parser_parse_args (argv : list string) : M Args :=
  match parse_args env argv with
  | inl args => ret args
  | inr code => raise (SystemExit code)
  end.

End System.

(** ** The generator class *)

Record Location := {
  loc_lat : Q;
  loc_lng : Q;
  loc_name : string
}.

(** [BinQRGenerator.CATEGORIES]. *)
Definition CATEGORIES : list string :=
  ["recycle"; "organic"; "landfill"; "ewaste"; "hazardous"].

(** [BinQRGenerator.SAMPLE_LOCATIONS]. *)
Definition SAMPLE_LOCATIONS : list Location :=
  [ {| loc_lat := 37.7749; loc_lng := -122.4194; loc_name := "Downtown SF - Market St" |};
    {| loc_lat := 37.7849; loc_lng := -122.4094; loc_name := "Downtown SF - Union Square" |};
    {| loc_lat := 37.7649; loc_lng := -122.4294; loc_name := "Downtown SF - SOMA" |};
    {| loc_lat := 37.8719; loc_lng := -122.2585; loc_name := "UC Berkeley Campus" |};
    {| loc_lat := 37.8619; loc_lng := -122.2485; loc_name := "Berkeley Downtown" |};
    {| loc_lat := 37.7694; loc_lng := -122.4862; loc_name := "Golden Gate Park" |};
    {| loc_lat := 37.8024; loc_lng := -122.4058; loc_name := "Presidio Park" |};
    {| loc_lat := 37.7849; loc_lng := -122.4094; loc_name := "Mission District" |};
    {| loc_lat := 37.7949; loc_lng := -122.3994; loc_name := "Castro District" |};
    {| loc_lat := 37.8049; loc_lng := -122.4194; loc_name := "Pacific Heights" |} ]%Q.

(** The instance state of [BinQRGenerator]. *)
Record BinQRGenerator := { output_dir : string }.

(** [generate_bin_id]. *)
Definition generate_bin_id (location_idx : Z) (category : string) : string :=
  "BIN_" ++ PyStr.format_03d location_idx ++ "_" ++ PyStr.upper category.

(** The record stored for a generated bin: the payload plus three keys. *)
Definition bin_info (payload : pydict) (location : Location)
    (filepath filename : string) : pydict :=
  Dict.update payload
    [("location_name", PyStr (loc_name location));
     ("qr_file", PyStr filepath);
     ("filename", PyStr filename)].

Section Generator.

Variable env : Env.

(** [ensure_output_dir]. *)
Definition ensure_output_dir (self : BinQRGenerator) : M unit :=
  do present <- os_path_exists (output_dir self);
  if negb present then
    run os_makedirs env (output_dir self);
    print ("Created output directory: " ++ output_dir self)
  else ret tt.

(** [__init__]. *)
Definition init (out : string) : M BinQRGenerator :=
  let self := {| output_dir := out |} in
  run ensure_output_dir self;
  ret self.

(** [create_bin_payload]. *)
Definition create_bin_payload (bin_id category : string) (lat lng : Q)
  : M pydict :=
  let gh := Geohash.encode lat lng 8 in
  do now <- utcnow_isoformat env;
  ret [("bin_id", PyStr bin_id);
       ("category", PyStr category);
       ("latitude", PyFloat lat);
       ("longitude", PyFloat lng);
       ("geohash", PyStr gh);
       ("generated_at", PyStr now);
       ("version", PyStr "1.0")].

(** [generate_qr_code]: the payload as compact JSON goes to the QR library,
    the image goes to [<output_dir>/<filename>.<format.lower()>]. *)
Definition generate_qr_code (self : BinQRGenerator) (payload : pydict)
    (filename format : string) : M string :=
  let json_data := Json.dumps_compact (PyDict payload) in
  run emit (EvQrData json_data);
  let filepath :=
    os_path_join (output_dir self) (filename ++ "." ++ PyStr.lower format) in
  do img <- qr_make_image env json_data filepath;
  run write_file env filepath img;
  ret filepath.

(** The body of the inner loop of [generate_all_bins]. *)
Definition generate_one_bin (self : BinQRGenerator) (format : string)
    (loc_idx : nat) (location : Location)
    (generated_bins : list pydict) (category : string) : M (list pydict) :=
  let bin_id := generate_bin_id (Z.of_nat loc_idx) category in
  do payload <- create_bin_payload bin_id category
                  (loc_lat location) (loc_lng location);
  let safe_name :=
    PyStr.replace "-" "_" (PyStr.replace " " "_" (loc_name location)) in
  let filename := safe_name ++ "_" ++ category ++ "_" ++ bin_id in
  do filepath <- generate_qr_code self payload filename format;
  let generated_bins' :=
    (generated_bins ++ [bin_info payload location filepath filename])%list in
  run print ("Generated: " ++ filename);
  ret generated_bins'.

(** [generate_all_bins]. *)
Definition generate_all_bins (self : BinQRGenerator) (format : string)
  : M (list pydict) :=
  run print ("Generating QR codes for "
             ++ PyStr.of_N (N.of_nat (length SAMPLE_LOCATIONS))
             ++ " locations × "
             ++ PyStr.of_N (N.of_nat (length CATEGORIES))
             ++ " categories...");
  foldM (fun generated_bins '(loc_idx, location) =>
           foldM (generate_one_bin self format loc_idx location)
                 CATEGORIES generated_bins)
        (enumerate SAMPLE_LOCATIONS) [].

(** The dict that [save_bin_manifest] builds and serializes. *)
Definition manifest (now : string) (bins : list pydict) : pydict :=
  [("generated_at", PyStr now);
   ("total_bins", PyInt (Z.of_nat (length bins)));
   ("categories", PyList (map PyStr CATEGORIES));
   ("locations_count", PyInt (Z.of_nat (length SAMPLE_LOCATIONS)));
   ("bins", PyList (map PyDict bins))].

(** [save_bin_manifest]. *)
Definition save_bin_manifest (self : BinQRGenerator) (bins : list pydict)
  : M string :=
  let manifest_path := os_path_join (output_dir self) "bin_manifest.json" in
  do now <- utcnow_isoformat env;
  let manifest := manifest now bins in
  run write_file env manifest_path (Json.dumps_indent2 (PyDict manifest));
  run print ("Saved manifest: " ++ manifest_path);
  ret manifest_path.

(** The body of the loop of [generate_test_bins]. *)
Definition generate_test_bin (self : BinQRGenerator) (format : string)
    (test_bins : list pydict) (i : nat) : M (list pydict) :=
  do location <- list_index SAMPLE_LOCATIONS (i mod length SAMPLE_LOCATIONS);
  do category <- list_index CATEGORIES (i mod length CATEGORIES);
  let bin_id :=
    "TEST_" ++ PyStr.format_03d (Z.of_nat i) ++ "_" ++ PyStr.upper category in
  do payload <- create_bin_payload bin_id category
                  (loc_lat location) (loc_lng location);
  let filename :=
    "test_" ++ PyStr.format_03d (Z.of_nat i) ++ "_" ++ category ++ "_" ++ bin_id in
  do filepath <- generate_qr_code self payload filename format;
  let test_bins' :=
    (test_bins ++ [bin_info payload location filepath filename])%list in
  run print ("Generated test bin: " ++ filename);
  ret test_bins'.

(** [generate_test_bins]. *)
Definition generate_test_bins (self : BinQRGenerator) (count : Z)
    (format : string) : M (list pydict) :=
  run print ("Generating " ++ PyStr.of_Z count ++ " test bins...");
  foldM (generate_test_bin self format) (range count) [].

(** The body of the [try] block of [main]. *)
Definition main_try (generator : BinQRGenerator) (args : Args) : M unit :=
  do bins <- (if arg_test_only args
              then generate_test_bins generator (arg_count args) (arg_format args)
              else generate_all_bins generator (arg_format args));
  do manifest_path <- save_bin_manifest generator bins;
  run print (Json.newline ++ "✅ Successfully generated "
             ++ PyStr.of_N (N.of_nat (length bins)) ++ " QR codes");
  run print ("📁 Output directory: " ++ arg_output_dir args);
  run print ("📄 Manifest file: " ++ manifest_path);
  run print (Json.newline ++ "To use in Flutter app:");
  run print "1. Copy QR code images to test devices or print them";
  run print "2. Use mobile_scanner package to scan QR codes";
  print "3. Parse JSON payload to extract bin information".

(** [main]: the value it returns, or the exception that leaves it. *)
Definition main (argv : list string) : M Z :=
  do args <- parser_parse_args env argv;
  do generator <- init (arg_output_dir args);
  do early <- try_except
                (run main_try generator args; ret None)
                (fun e => run print ("❌ Error generating QR codes: " ++ e);
                          ret (Some 1));
  match early with
  | Some code => ret code
  | None => ret 0
  end.

(** [exit(main())]: the exit status of the process.  An exception that
    leaves [main] ends the interpreter with status 1, [SystemExit] with its
    own code. *)
Definition script (argv : list string) (w : World) : Z * World :=
  match main argv w with
  | (Ok code, w') => (code, w')
  | (Raise (SystemExit code), w') => (code, w')
  | (Raise (Exception _), w') => (1, w')
  end.

End Generator.

(** ** Specification vocabulary *)

(** The paths written, in order, with what was written. *)
Definition writes (t : list event) : list (string * string) :=
  flat_map (fun e => match e with EvWrite p c => [(p, c)] | _ => [] end) t.

Definition written_paths (t : list event) : list string := map fst (writes t).

(** The data handed to the QR library, in order. *)
Definition qr_payloads (t : list event) : list string :=
  flat_map (fun e => match e with EvQrData d => [d] | _ => [] end) t.

(** Neither the libraries nor the operating system fail. *)
Definition no_faults (env : Env) : Prop :=
  (forall p, os_error env p = None) /\
  (forall d p, exists img, qr_image env d p = inl img).

(** One pass through a loop body: which bin it is about. *)
Record job := {
  job_bin_id : string;
  job_category : string;
  job_location : Location;
  job_filename : string;
  job_message : string
}.

Definition safe_name (location : Location) : string :=
  PyStr.replace "-" "_" (PyStr.replace " " "_" (loc_name location)).

Definition full_job (x : nat * Location * string) : job :=
  let '(loc_idx, location, category) := x in
  let bin_id := generate_bin_id (Z.of_nat loc_idx) category in
  let filename := safe_name location ++ "_" ++ category ++ "_" ++ bin_id in
  {| job_bin_id := bin_id; job_category := category; job_location := location;
     job_filename := filename; job_message := "Generated: " ++ filename |}.

Definition location_at (i : nat) : Location :=
  nth i SAMPLE_LOCATIONS {| loc_lat := 0; loc_lng := 0; loc_name := "" |}.

Definition category_at (i : nat) : string := nth i CATEGORIES "".

Definition test_job (i : nat) : job :=
  let location := location_at (i mod length SAMPLE_LOCATIONS) in
  let category := category_at (i mod length CATEGORIES) in
  let bin_id :=
    "TEST_" ++ PyStr.format_03d (Z.of_nat i) ++ "_" ++ PyStr.upper category in
  let filename :=
    "test_" ++ PyStr.format_03d (Z.of_nat i) ++ "_" ++ category ++ "_" ++ bin_id in
  {| job_bin_id := bin_id; job_category := category; job_location := location;
     job_filename := filename;
     job_message := "Generated test bin: " ++ filename |}.

(** The payload of a job, given the clock reading. *)
Definition job_payload (j : job) (now : string) : pydict :=
  [("bin_id", PyStr (job_bin_id j));
   ("category", PyStr (job_category j));
   ("latitude", PyFloat (loc_lat (job_location j)));
   ("longitude", PyFloat (loc_lng (job_location j)));
   ("geohash", PyStr (Geohash.encode (loc_lat (job_location j))
                                      (loc_lng (job_location j)) 8));
   ("generated_at", PyStr now);
   ("version", PyStr "1.0")].

Definition job_filepath (out format : string) (j : job) : string :=
  os_path_join out (job_filename j ++ "." ++ PyStr.lower format).

Definition job_record (out format : string) (j : job) (now : string) : pydict :=
  bin_info (job_payload j now) (job_location j)
           (job_filepath out format j) (job_filename j).

Definition image_of (env : Env) (data path : string) : string :=
  match qr_image env data path with
  | inl img => img
  | inr _ => ""
  end.

(** The world after a job went through without a failure. *)
Definition job_world (env : Env) (out format : string) (w : World) (j : job)
  : World :=
  let data := Json.dumps_compact (PyDict (job_payload j (clock env (ticks w)))) in
  let path := job_filepath out format j in
  let img := image_of env data path in
  {| files := <[path := img]> (files w);
     dirs := dirs w;
     ticks := S (ticks w);
     trace := trace w ++ [EvQrData data; EvWrite path img;
                          EvPrint (job_message j)] |}.

(** The records of a sequence of jobs whose first clock reading is [t]. *)
Fixpoint job_records (env : Env) (out format : string) (t : nat)
    (js : list job) : list pydict :=
  match js with
  | [] => []
  | j :: js' =>
      job_record out format j (clock env t) :: job_records env out format (S t) js'
  end.

(** The pairs of the two nested loops of full mode, outer loop first. *)
Definition all_pairs : list (nat * Location * string) :=
  list_prod (enumerate SAMPLE_LOCATIONS) CATEGORIES.

Definition manifest_path (out : string) : string :=
  os_path_join out "bin_manifest.json".

(** The [if args.test_only: ... else: ...] of [main]: the bins of a run, in
    either mode. *)
Definition generate (env : Env) (self : BinQRGenerator) (args : Args)
  : M (list pydict) :=
  if arg_test_only args
  then generate_test_bins env self (arg_count args) (arg_format args)
  else generate_all_bins env self (arg_format args).

(** ** Proof vocabulary for the geohash model *)

Module GeohashSpec.

Import Geohash.
Local Open Scope Q_scope.

(** The comparison one iteration of [encode] makes. *)
Definition enc_bit (lat lon : Q) (st : enc_state) : bool :=
  Qgt_bool (if even st then lon else lat)
           (mid (if even st then lon_interval st else lat_interval st)).

Definition five_steps (lat lon : Q) (st : enc_state) : enc_state :=
  encode_step lat lon (encode_step lat lon (encode_step lat lon
    (encode_step lat lon (encode_step lat lon st)))).

(** The decoder is in step with the encoder: same cell, same parity. *)
Definition sync (st : enc_state) (ds : dec_state) : Prop :=
  d_lat_interval ds = lat_interval st /\
  d_lon_interval ds = lon_interval st /\
  is_even ds = even st.

Definition inside (x : Q) (i : Q * Q) : Prop := fst i <= x /\ x <= snd i.

Definition half_width (i : Q * Q) (err : Q) : Prop := snd i - fst i == 2 * err.

Definition margins (ds : dec_state) : Prop :=
  half_width (d_lat_interval ds) (lat_err ds) /\
  half_width (d_lon_interval ds) (lon_err ds).

Definition err_state (ds : dec_state) : Q * Q * bool :=
  (lat_err ds, lon_err ds, is_even ds).

Definition err_step (e : Q * Q * bool) : Q * Q * bool :=
  let '(elat, elon, ev) := e in
  if ev then (elat, elon / 2, false) else (elat / 2, elon, true).

End GeohashSpec.

(** ** Proof vocabulary for the generator *)

Definition run_job (env : Env) (self : BinQRGenerator) (format : string)
    (acc : list pydict) (j : job) : M (list pydict) :=
  do payload <- create_bin_payload env (job_bin_id j) (job_category j)
                  (loc_lat (job_location j)) (loc_lng (job_location j));
  do filepath <- generate_qr_code env self payload (job_filename j) format;
  run print (job_message j);
  ret (acc ++ [bin_info payload (job_location j) filepath (job_filename j)])%list.

(** The world after the clock was read and the data were handed to the QR
    library. *)
Definition job_started (env : Env) (w : World) (j : job) : World :=
  {| files := files w; dirs := dirs w; ticks := S (ticks w);
     trace := trace w ++ [EvQrData (Json.dumps_compact
                (PyDict (job_payload j (clock env (ticks w)))))] |}.

Definition pad (k : nat) (d : Decimal.uint) : Decimal.uint :=
  Nat.iter k Decimal.D0 d.

(** The file name of a job starts with a character that is neither a slash
    nor the first letter of the manifest's name. *)
Definition good_filename (j : job) : bool :=
  match job_filename j with
  | String c _ => negb (Ascii.eqb c "/") && negb (Ascii.eqb c "b")
  | EmptyString => false
  end.

Fixpoint job_events (env : Env) (out format : string) (t : nat) (js : list job)
  : list event :=
  match js with
  | [] => []
  | j :: js' =>
      let data := Json.dumps_compact (PyDict (job_payload j (clock env t))) in
      let path := job_filepath out format j in
      EvQrData data :: EvWrite path (image_of env data path)
        :: EvPrint (job_message j) :: job_events env out format (S t) js'
  end.

Definition announced (w : World) (line : string) : World :=
  {| files := files w; dirs := dirs w; ticks := ticks w;
     trace := trace w ++ [EvPrint line] |}.

(** The jobs of a run. *)
Definition jobs_of (args : Args) : list job :=
  if arg_test_only args then map test_job (range (arg_count args))
  else map full_job all_pairs.

Definition banner (args : Args) : string :=
  if arg_test_only args
  then "Generating " ++ PyStr.of_Z (arg_count args) ++ " test bins..."
  else "Generating QR codes for "
         ++ PyStr.of_N (N.of_nat (length SAMPLE_LOCATIONS))
         ++ " locations × "
         ++ PyStr.of_N (N.of_nat (length CATEGORIES))
         ++ " categories...".

Definition manifest_json (env : Env) (bins : list pydict) (w : World) : string :=
  Json.dumps_indent2 (PyDict (manifest (clock env (ticks w)) bins)).

Definition manifest_world (env : Env) (out : string) (bins : list pydict)
    (w : World) : World :=
  {| files := <[manifest_path out := manifest_json env bins w]> (files w);
     dirs := dirs w;
     ticks := S (ticks w);
     trace := trace w ++ [EvWrite (manifest_path out) (manifest_json env bins w);
                          EvPrint ("Saved manifest: " ++ manifest_path out)] |}.

Definition ticked (w : World) : World :=
  {| files := files w; dirs := dirs w; ticks := S (ticks w); trace := trace w |}.

(** The seven lines printed at the end of a successful run. *)
Definition report (args : Args) (bins : list pydict) (path : string)
  : list string :=
  [Json.newline ++ "✅ Successfully generated "
     ++ PyStr.of_N (N.of_nat (length bins)) ++ " QR codes";
   "📁 Output directory: " ++ arg_output_dir args;
   "📄 Manifest file: " ++ path;
   Json.newline ++ "To use in Flutter app:";
   "1. Copy QR code images to test devices or print them";
   "2. Use mobile_scanner package to scan QR codes";
   "3. Parse JSON payload to extract bin information"].

(** The world in which a run ends when nothing fails. *)
Definition run_bins (env : Env) (self : BinQRGenerator) (args : Args) (w : World)
  : list pydict :=
  job_records env (output_dir self) (arg_format args) (ticks w) (jobs_of args).

Definition generated_world (env : Env) (self : BinQRGenerator) (args : Args)
    (w : World) : World :=
  fold_left (job_world env (output_dir self) (arg_format args)) (jobs_of args)
            (announced w (banner args)).

(** The world after [ensure_output_dir] created the directory. *)
Definition created (out : string) (w : World) : World :=
  {| files := files w; dirs := {[out]} ∪ dirs w; ticks := ticks w;
     trace := trace w ++ [EvMakedirs out;
                          EvPrint ("Created output directory: " ++ out)] |}.

Definition path_exists (w : World) (p : string) : bool :=
  match files w !! p with
  | Some _ => true
  | None => bool_decide (p ∈ dirs w)
  end.

Definition error_line (msg : string) : string :=
  "❌ Error generating QR codes: " ++ msg.

(** ** Environments for examples *)

(** Nothing fails; the parser knows the empty command line only. *)
Definition demo_env : Env :=
  {| clock := fun k => "2024-05-01T12:00:0" ++ PyStr.of_N (N.of_nat k);
     qr_image := fun data _ => inl ("QR<" ++ data ++ ">");
     os_error := fun _ => None;
     parse_args := fun argv =>
       match argv with
       | [] => inl default_args
       | _ => inr 2
       end |}.

(** The same libraries at a later time. *)
Definition later_env : Env :=
  {| clock := fun k => "2025-11-30T08:30:1" ++ PyStr.of_N (N.of_nat k);
     qr_image := qr_image demo_env;
     os_error := os_error demo_env;
     parse_args := parse_args demo_env |}.

(** The output directory cannot be created. *)
Definition readonly_env : Env :=
  {| clock := clock demo_env;
     qr_image := qr_image demo_env;
     os_error := fun p =>
       if String.eqb p "./qr_codes" then Some "[Errno 13] Permission denied"
       else None;
     parse_args := parse_args demo_env |}.

(** One test bin is asked for, and the manifest cannot be written. *)
Definition full_disk_env : Env :=
  {| clock := clock demo_env;
     qr_image := qr_image demo_env;
     os_error := fun p =>
       if String.eqb p "out/bin_manifest.json"
       then Some "[Errno 28] No space left on device"
       else None;
     parse_args := fun _ =>
       inl {| arg_output_dir := "out"; arg_format := "PNG";
              arg_test_only := true; arg_count := 1 |} |}.

Definition empty_world : World :=
  {| files := ∅; dirs := ∅; ticks := 0; trace := [] |}.

Definition demo_generator : BinQRGenerator := {| output_dir := "out" |}.

Definition test_args (n : Z) (format : string) : Args :=
  {| arg_output_dir := "out"; arg_format := format;
     arg_test_only := true; arg_count := n |}.

Definition demo_test_run : result (list pydict) * World :=
  Eval vm_compute in generate_test_bins demo_env demo_generator 2 "PNG" empty_world.

Definition demo_test_bins : list pydict :=
  Eval vm_compute in match demo_test_run with (Ok bins, _) => bins | _ => [] end.

Definition demo_test_world : World :=
  Eval vm_compute in snd demo_test_run.

(** A world in which a manifest and another file exist already. *)
Definition used_world : World :=
  {| files := {[ "out/bin_manifest.json" := "old manifest";
                 "out/notes.txt" := "keep me" ]};
     dirs := {[ "out" ]}; ticks := 7; trace := [] |}.

(** The five fields of a record that say which bin it is about. *)
Definition identity (r : pydict) : list (option pyval) :=
  [Dict.get "location_name" r; Dict.get "latitude" r; Dict.get "longitude" r;
   Dict.get "category" r; Dict.get "bin_id" r].

(** The compact JSON of a payload up to the timestamp, and after it. *)
Definition payload_head (j : job) : string :=
  "{" ++ Json.encode_str "bin_id" ++ ":" ++ Json.encode_str (job_bin_id j) ++ ","
      ++ Json.encode_str "category" ++ ":" ++ Json.encode_str (job_category j) ++ ","
      ++ Json.encode_str "latitude" ++ ":"
      ++ Json.float_repr (loc_lat (job_location j)) ++ ","
      ++ Json.encode_str "longitude" ++ ":"
      ++ Json.float_repr (loc_lng (job_location j)) ++ ","
      ++ Json.encode_str "geohash" ++ ":"
      ++ Json.encode_str (Geohash.encode (loc_lat (job_location j))
                                         (loc_lng (job_location j)) 8) ++ ",".

Definition payload_tail : string :=
  "," ++ Json.encode_str "version" ++ ":" ++ Json.encode_str "1.0" ++ "}".

Definition later_world : World :=
  {| files := ∅; dirs := {[ "out" ]}; ticks := 3; trace := [] |}.

Definition later_test_run : result (list pydict) * World :=
  Eval vm_compute in generate_test_bins later_env demo_generator 2 "PNG" later_world.

(** The run ends with [main] returning 0. *)
Definition succeeds (env : Env) (argv : list string) (w : World) : Prop :=
  exists w', main env argv w = (Ok 0, w').

(** The driver caught the failure: [main] returns 1 and the last thing it
    did was to print the error line. *)
Definition caught_and_logged (env : Env) (argv : list string) (w : World)
  : Prop :=
  exists msg w' t,
    main env argv w = (Ok 1, w') /\
    trace w' = (t ++ [EvPrint (error_line msg)])%list.

(** The geohash of a record decodes to the centre of a cell of half-width
    [90 / 2^20] degrees of latitude and [180 / 2^20] degrees of longitude,
    and the recorded coordinates lie in that cell. *)
Definition decodes_near (r : pydict) : Prop :=
  exists lat lng gh lat' lon' lat_err lon_err,
    Dict.get "latitude" r = Some (PyFloat lat) /\
    Dict.get "longitude" r = Some (PyFloat lng) /\
    Dict.get "geohash" r = Some (PyStr gh) /\
    Geohash.decode_exactly gh = Some (lat', lon', lat_err, lon_err) /\
    (lat_err == 90 / 1048576 /\ lon_err == 180 / 1048576 /\
     Qabs (lat - lat') <= lat_err /\ Qabs (lng - lon') <= lon_err)%Q.

Definition valid_coordinates (lat lng : Q) : Prop :=
  (-90 <= lat <= 90 /\ -180 <= lng <= 180)%Q.

(** [c in s]. *)
Fixpoint mem_char (c : ascii) (s : string) : bool :=
  match s with
  | EmptyString => false
  | String c' s' => Ascii.eqb c' c || mem_char c s'
  end.

(** [p] lies under the directory [out] as far as its spelling goes. *)
Definition under (out p : string) : Prop := exists rest, p = out ++ rest.

(** From [w] to [w'] no file disappeared, no directory changed, and the
    files that differ are among those written in between, all of them
    spelled under [out]. *)
Definition only_writes_under (out : string) (w w' : World) : Prop :=
  dirs w' = dirs w /\
  (forall p, is_Some (files w !! p) -> is_Some (files w' !! p)) /\
  exists ps,
    written_paths (trace w') = (written_paths (trace w) ++ ps)%list /\
    Forall (under out) ps /\
    (forall p, ~ In p ps -> files w' !! p = files w !! p).

(** The image of the second test bin cannot be written. *)
Definition flaky_env : Env :=
  {| clock := clock demo_env;
     qr_image := qr_image demo_env;
     os_error := fun p =>
       if String.eqb p "out/test_001_organic_TEST_001_ORGANIC.png"
       then Some "[Errno 5] Input/output error"
       else None;
     parse_args := fun _ =>
       inl {| arg_output_dir := "out"; arg_format := "PNG";
              arg_test_only := true; arg_count := 3 |} |}.

(** Two test bins are asked for and nothing fails. *)
Definition quick_env : Env :=
  {| clock := clock demo_env;
     qr_image := qr_image demo_env;
     os_error := os_error demo_env;
     parse_args := fun _ =>
       inl {| arg_output_dir := "out"; arg_format := "PNG";
              arg_test_only := true; arg_count := 2 |} |}.

(** The keys of a record, in the order of the manifest. *)
Definition record_keys : list string :=
  ["bin_id"; "category"; "latitude"; "longitude"; "geohash"; "generated_at";
   "version"; "location_name"; "qr_file"; "filename"].

(** Why job [j], started in world [w], fails with [msg]. *)
Definition job_fails (env : Env) (self : BinQRGenerator) (format : string)
    (w : World) (j : job) (msg : string) : Prop :=
  let data := Json.dumps_compact (PyDict (job_payload j (clock env (ticks w)))) in
  let path := job_filepath (output_dir self) format j in
  qr_image env data path = inr msg \/
  (exists img, qr_image env data path = inl img) /\ os_error env path = Some msg.

Definition flaky_run : result (list pydict) * World :=
  Eval vm_compute in generate_test_bins flaky_env demo_generator 3 "PNG" empty_world.

Definition quick_exit : Z * World :=
  Eval vm_compute in script quick_env [] empty_world.

Definition demo_one_run : result (list pydict) * World :=
  Eval vm_compute in generate_test_bins demo_env demo_generator 1 "PNG" empty_world.

Definition first_run : result unit * World :=
  Eval vm_compute in main_try demo_env demo_generator (test_args 2 "PNG") empty_world.

Definition second_run : result unit * World :=
  Eval vm_compute in main_try later_env demo_generator (test_args 2 "PNG") (snd first_run).

(** * Properties *)

(** ** Sanity checks of the embedding *)

Example format_03d_7 : PyStr.format_03d 7 = "007".
Proof. reflexivity. Qed.

Example format_03d_1234 : PyStr.format_03d 1234 = "1234".
Proof. reflexivity. Qed.

Example format_03d_neg : PyStr.format_03d (-1) = "-01".
Proof. reflexivity. Qed.

Example upper_ewaste : PyStr.upper "ewaste" = "EWASTE".
Proof. reflexivity. Qed.

Example join_example : os_path_join "./qr_codes" "a.png" = "./qr_codes/a.png".
Proof. reflexivity. Qed.

Example float_repr_lat : Json.float_repr (37.7749)%Q = "37.7749".
Proof. reflexivity. Qed.

Example float_repr_lng : Json.float_repr (-122.4194)%Q = "-122.4194".
Proof. reflexivity. Qed.

Example dumps_compact_example :
  Json.dumps_compact (PyDict [("a", PyInt 1); ("b", PyList [PyStr "x"; PyFloat 0.5])])
  = String "{" (Json.encode_str "a" ++ ":1," ++ Json.encode_str "b" ++ ":["
                ++ Json.encode_str "x" ++ ",0.5]}").
Proof. reflexivity. Qed.

Example geohash_market_st :
  Geohash.encode (37.7749)%Q (-122.4194)%Q 8 = "9q8yyk8y".
Proof. vm_compute. reflexivity. Qed.

Example geohash_berkeley :
  Geohash.encode (37.8719)%Q (-122.2585)%Q 8 = "9q9p3yq5".
Proof. vm_compute. reflexivity. Qed.

(** ** Loop bodies as jobs *)

Lemma generate_one_bin_job env self format loc_idx location acc category :
  generate_one_bin env self format loc_idx location acc category
  = run_job env self format acc (full_job (loc_idx, location, category)).
Proof. reflexivity. Qed.

Lemma location_at_mod i :
  nth_error SAMPLE_LOCATIONS (i mod length SAMPLE_LOCATIONS)
  = Some (location_at (i mod length SAMPLE_LOCATIONS)).
Proof.
  apply nth_error_nth'. apply Nat.mod_upper_bound. discriminate.
Qed.

Lemma category_at_mod i :
  nth_error CATEGORIES (i mod length CATEGORIES)
  = Some (category_at (i mod length CATEGORIES)).
Proof.
  apply nth_error_nth'. apply Nat.mod_upper_bound. discriminate.
Qed.

Lemma generate_test_bin_job env self format acc i w :
  generate_test_bin env self format acc i w
  = run_job env self format acc (test_job i) w.
Proof.
  unfold generate_test_bin, list_index.
  rewrite location_at_mod, category_at_mod. reflexivity.
Qed.

Lemma run_job_cases env self format acc j w :
  let data := Json.dumps_compact (PyDict (job_payload j (clock env (ticks w)))) in
  let path := job_filepath (output_dir self) format j in
  run_job env self format acc j w =
  match qr_image env data path with
  | inr msg => (Raise (Exception msg), job_started env w j)
  | inl img =>
      match os_error env path with
      | Some msg => (Raise (Exception msg), job_started env w j)
      | None =>
          (Ok (acc ++ [job_record (output_dir self) format j
                         (clock env (ticks w))])%list,
           job_world env (output_dir self) format w j)
      end
  end.
Proof.
  intros data path.
  unfold run_job, bind, create_bin_payload, utcnow_isoformat, generate_qr_code,
    bind, emit, qr_make_image, write_file, print, emit, ret, raise.
  cbn [files dirs ticks trace].
  fold (job_payload j (clock env (ticks w))). fold data.
  fold (job_filepath (output_dir self) format j). fold path.
  unfold job_world, image_of. fold data. fold path.
  destruct (qr_image env data path) as [img|msg]; [|reflexivity].
  destruct (os_error env path) as [msg|]; [reflexivity|].
  cbn [files dirs ticks trace]. rewrite <- !app_assoc. reflexivity.
Qed.

Lemma foldM_ext {A B} (f g : B -> A -> M B) xs :
  (forall acc x w, In x xs -> f acc x w = g acc x w) ->
  forall acc w, foldM f xs acc w = foldM g xs acc w.
Proof.
  induction xs as [|x xs IH]; intros Hfg acc w; [reflexivity|].
  cbn [foldM]. unfold bind. rewrite Hfg by (left; reflexivity).
  destruct (g acc x w) as [[acc'|e] w']; [|reflexivity].
  apply IH. intros; apply Hfg; right; assumption.
Qed.

Lemma foldM_map {A A' B} (h : A' -> A) (f : B -> A -> M B) xs acc w :
  foldM f (map h xs) acc w = foldM (fun acc x => f acc (h x)) xs acc w.
Proof.
  revert acc w. induction xs as [|x xs IH]; intros acc w; [reflexivity|].
  cbn [map foldM]. unfold bind.
  destruct (f acc (h x) w) as [[acc'|e] w']; [apply IH|reflexivity].
Qed.

Lemma foldM_app {A B} (f : B -> A -> M B) xs ys acc w :
  foldM f (xs ++ ys) acc w
  = match foldM f xs acc w with
    | (Ok acc', w') => foldM f ys acc' w'
    | (Raise e, w') => (Raise e, w')
    end.
Proof.
  revert acc w. induction xs as [|x xs IH]; intros acc w; [reflexivity|].
  cbn [app foldM]. unfold bind.
  destruct (f acc x w) as [[acc'|e] w']; [apply IH|reflexivity].
Qed.

(** Two nested loops are one loop over the product, outer index first. *)
Lemma foldM_nested {A1 A2 B} (g : A1 -> B -> A2 -> M B) xs ys acc w :
  foldM (fun acc x => foldM (g x) ys acc) xs acc w
  = foldM (fun acc p => g (fst p) acc (snd p)) (list_prod xs ys) acc w.
Proof.
  revert acc w. induction xs as [|x xs IH]; intros acc w; [reflexivity|].
  cbn [list_prod foldM]. rewrite foldM_app. unfold bind.
  rewrite foldM_map. cbn [fst snd].
  change (fun acc0 x0 => g x acc0 x0) with (g x).
  destruct (foldM (g x) ys acc w) as [[acc'|e] w']; [apply IH|reflexivity].
Qed.

Section Jobs.

Variable env : Env.
Variable self : BinQRGenerator.
Variable format : string.

Lemma job_world_ticks w j :
  ticks (job_world env (output_dir self) format w j) = S (ticks w).
Proof. reflexivity. Qed.

(** A loop over jobs either runs every job, or stops inside the first job
    for which a library or the operating system fails. *)
Lemma run_jobs_cases js : forall acc w,
  foldM (run_job env self format) js acc w
  = (Ok (acc ++ job_records env (output_dir self) format (ticks w) js)%list,
     fold_left (job_world env (output_dir self) format) js w)
  \/ exists msg k j,
       nth_error js k = Some j /\
       foldM (run_job env self format) js acc w
       = (Raise (Exception msg),
          job_started env (fold_left (job_world env (output_dir self) format) (firstn k js) w) j).
Proof.
  induction js as [|j js IH]; intros acc w.
  - left. cbn. rewrite app_nil_r. reflexivity.
  - cbn [foldM]. unfold bind. rewrite run_job_cases.
    destruct (qr_image env _ _) as [img|msg].
    + destruct (os_error env _) as [msg|].
      * right. exists msg, 0%nat, j. split; reflexivity.
      * destruct (IH (acc ++ [job_record (output_dir self) format j (clock env (ticks w))])%list
                   (job_world env (output_dir self) format w j)) as [H|(msg & k & j' & Hk & H)].
        -- left. rewrite H. cbn [job_records fold_left job_world ticks].
           rewrite <- app_assoc. reflexivity.
        -- right. exists msg, (S k), j'. split; [exact Hk|]. rewrite H. reflexivity.
    + right. exists msg, 0%nat, j. split; reflexivity.
Qed.

Lemma run_jobs_ok js : no_faults env -> forall acc w,
  foldM (run_job env self format) js acc w
  = (Ok (acc ++ job_records env (output_dir self) format (ticks w) js)%list,
     fold_left (job_world env (output_dir self) format) js w).
Proof.
  intros [Hos Hqr]. induction js as [|j js IH]; intros acc w.
  - cbn. rewrite app_nil_r. reflexivity.
  - cbn [foldM]. unfold bind. rewrite run_job_cases.
    destruct (Hqr (Json.dumps_compact (PyDict (job_payload j (clock env (ticks w)))))
                  (job_filepath (output_dir self) format j)) as [img ->].
    rewrite Hos, IH. cbn [job_records fold_left job_world ticks].
    rewrite <- app_assoc. reflexivity.
Qed.

Lemma run_jobs_inv js acc w bins w' :
  foldM (run_job env self format) js acc w = (Ok bins, w') ->
  bins = (acc ++ job_records env (output_dir self) format (ticks w) js)%list /\
  w' = fold_left (job_world env (output_dir self) format) js w.
Proof.
  intros H. destruct (run_jobs_cases js acc w) as [H'|(msg & k & j & _ & H')];
    rewrite H' in H; [|discriminate].
  inversion H; auto.
Qed.

(** Test mode is a loop over [test_job 0], ..., [test_job (count - 1)]. *)
Lemma generate_test_bins_jobs count w :
  generate_test_bins env self count format w
  = (run print ("Generating " ++ PyStr.of_Z count ++ " test bins...");
     foldM (run_job env self format) (map test_job (range count)) []) w.
Proof.
  unfold generate_test_bins, bind.
  destruct (print _ w) as [[[]|e] w1]; [|reflexivity].
  rewrite foldM_map. apply foldM_ext.
  intros; apply generate_test_bin_job.
Qed.

(** Full mode is a loop over the product of locations and categories. *)
Lemma generate_all_bins_jobs w :
  generate_all_bins env self format w
  = (run print ("Generating QR codes for "
             ++ PyStr.of_N (N.of_nat (length SAMPLE_LOCATIONS))
             ++ " locations × "
             ++ PyStr.of_N (N.of_nat (length CATEGORIES))
             ++ " categories...");
     foldM (run_job env self format) (map full_job all_pairs) []) w.
Proof.
  unfold generate_all_bins, bind.
  destruct (print _ w) as [[[]|e] w1]; [|reflexivity].
  rewrite foldM_map. unfold all_pairs.
  transitivity
    (foldM (fun acc x =>
              foldM (fun acc c => run_job env self format acc (full_job (x, c)))
                    CATEGORIES acc)
           (enumerate SAMPLE_LOCATIONS) [] w1).
  - apply foldM_ext. intros acc [idx loc] w2 _. reflexivity.
  - rewrite (foldM_nested
      (fun x acc c => run_job env self format acc (full_job (x, c)))).
    apply foldM_ext. intros acc [x c] w2 _. reflexivity.
Qed.

End Jobs.

(** ** Strings *)

Lemma string_app_cons c s t : String c s ++ t = String c (s ++ t).
Proof. reflexivity. Qed.

Lemma string_app_nil_l s : "" ++ s = s.
Proof. reflexivity. Qed.

Lemma string_app_assoc s t u : (s ++ t) ++ u = s ++ (t ++ u).
Proof.
  induction s as [|c s IH]; [reflexivity|].
  rewrite !string_app_cons, IH. reflexivity.
Qed.

Lemma string_app_length s t :
  String.length (s ++ t) = (String.length s + String.length t)%nat.
Proof.
  induction s as [|c s IH]; [reflexivity|].
  rewrite string_app_cons. cbn [String.length]. rewrite IH. reflexivity.
Qed.

Lemma string_app_inv_tail s1 s2 t : s1 ++ t = s2 ++ t -> s1 = s2.
Proof.
  revert s2. induction s1 as [|c1 s1 IH]; intros [|c2 s2] H.
  - reflexivity.
  - apply (f_equal String.length) in H.
    rewrite string_app_cons, string_app_nil_l in H. cbn [String.length] in H.
    rewrite string_app_length in H. lia.
  - apply (f_equal String.length) in H.
    rewrite string_app_cons, string_app_nil_l in H. cbn [String.length] in H.
    rewrite string_app_length in H. lia.
  - rewrite !string_app_cons in H. injection H as -> H.
    f_equal. apply IH, H.
Qed.

(** ** Decimal numerals *)

Lemma string_of_pad k d :
  NilEmpty.string_of_uint (pad k d)
  = PyStr.repeat_char "0" k ++ NilEmpty.string_of_uint d.
Proof.
  induction k as [|k IH]; [reflexivity|].
  change (pad (S k) d) with (Decimal.D0 (pad k d)).
  cbn [PyStr.repeat_char NilEmpty.string_of_uint].
  rewrite string_app_cons. f_equal. exact IH.
Qed.

Lemma of_uint_pad k d : N.of_uint (pad k d) = N.of_uint d.
Proof. induction k as [|k IH]; [reflexivity|exact IH]. Qed.

Lemma of_N_digits n : PyStr.of_N n = NilEmpty.string_of_uint (N.to_uint n).
Proof.
  unfold PyStr.of_N, NilZero.string_of_uint.
  destruct n as [|p]; [reflexivity|].
  cbn [N.to_uint]. pose proof (DecimalPos.Unsigned.to_uint_nonnil p) as H.
  destruct (Pos.to_uint p); congruence.
Qed.

(** A numeral followed by an underscore determines the numeral. *)
Lemma numeral_underscore d1 : forall d2 a b,
  NilEmpty.string_of_uint d1 ++ String "_" a
  = NilEmpty.string_of_uint d2 ++ String "_" b -> d1 = d2.
Proof.
  induction d1 as [|d1 IH|d1 IH|d1 IH|d1 IH|d1 IH|d1 IH|d1 IH|d1 IH|d1 IH|d1 IH];
    intros [|d2|d2|d2|d2|d2|d2|d2|d2|d2|d2] a b H;
    cbn [NilEmpty.string_of_uint] in H;
    rewrite ?string_app_cons, ?string_app_nil_l in H;
    try discriminate H; try reflexivity;
    injection H as H; f_equal; eapply IH; exact H.
Qed.

Lemma format_03d_nat i :
  PyStr.format_03d (Z.of_nat i)
  = NilEmpty.string_of_uint
      (pad (3 - String.length (PyStr.of_N (N.of_nat i))) (N.to_uint (N.of_nat i))).
Proof.
  unfold PyStr.format_03d.
  destruct (Z.ltb_spec (Z.of_nat i) 0) as [Hneg|_]; [lia|].
  rewrite string_app_nil_l, string_of_pad.
  rewrite <- nat_N_Z, Zabs2N.id, of_N_digits. reflexivity.
Qed.

(** [f"{i:03d}_..."] determines [i]. *)
Lemma format_03d_underscore i j a b :
  PyStr.format_03d (Z.of_nat i) ++ String "_" a
  = PyStr.format_03d (Z.of_nat j) ++ String "_" b -> i = j.
Proof.
  rewrite !format_03d_nat. intros H%numeral_underscore.
  apply (f_equal N.of_uint) in H.
  rewrite !of_uint_pad, !DecimalN.Unsigned.of_to in H. lia.
Qed.

Lemma test_bin_id_inj i j :
  job_bin_id (test_job i) = job_bin_id (test_job j) -> i = j.
Proof.
  cbn [job_bin_id test_job]. intros H.
  apply (inj (String.app "TEST_")) in H.
  eapply format_03d_underscore. exact H.
Qed.

Lemma test_filename_inj i j :
  job_filename (test_job i) = job_filename (test_job j) -> i = j.
Proof.
  cbn [job_filename test_job]. intros H.
  apply (inj (String.app "test_")) in H.
  eapply format_03d_underscore. exact H.
Qed.

(** ** Paths *)

Lemma os_path_join_relative a c s :
  c <> "/"%char ->
  os_path_join a (String c s)
  = (if orb (String.eqb a "") (PyStr.endswith a "/") then a else a ++ "/")
      ++ String c s.
Proof.
  intros Hc. unfold os_path_join. cbn [PyStr.startswith].
  destruct (Ascii.eqb_spec c "/"); [contradiction|].
  destruct (orb _ _); [reflexivity|]. rewrite string_app_assoc. reflexivity.
Qed.

Lemma os_path_join_inj a c1 s1 c2 s2 :
  c1 <> "/"%char -> c2 <> "/"%char ->
  os_path_join a (String c1 s1) = os_path_join a (String c2 s2) ->
  String c1 s1 = String c2 s2.
Proof.
  intros H1 H2. rewrite !os_path_join_relative by assumption.
  apply (inj (String.app _)).
Qed.

Lemma good_filename_test i : good_filename (test_job i) = true.
Proof. reflexivity. Qed.

Lemma good_filename_full : forallb good_filename (map full_job all_pairs) = true.
Proof. vm_compute. reflexivity. Qed.

Lemma job_filepath_inj out format j1 j2 :
  good_filename j1 = true -> good_filename j2 = true ->
  job_filepath out format j1 = job_filepath out format j2 ->
  job_filename j1 = job_filename j2.
Proof.
  unfold good_filename, job_filepath.
  destruct (job_filename j1) as [|c1 s1]; [discriminate|].
  destruct (job_filename j2) as [|c2 s2]; [discriminate|].
  intros H1 H2. rewrite !string_app_cons. intros H.
  apply os_path_join_inj in H.
  - rewrite <- !string_app_cons in H. eapply string_app_inv_tail, H.
  - destruct (Ascii.eqb_spec c1 "/"); [discriminate|assumption].
  - destruct (Ascii.eqb_spec c2 "/"); [discriminate|assumption].
Qed.

Lemma job_filepath_not_manifest out format j :
  good_filename j = true ->
  job_filepath out format j <> manifest_path out.
Proof.
  unfold good_filename, job_filepath, manifest_path.
  destruct (job_filename j) as [|c s]; [discriminate|].
  intros Hg H. rewrite string_app_cons in H.
  apply os_path_join_inj in H.
  - injection H as -> _. discriminate Hg.
  - destruct (Ascii.eqb_spec c "/"); [discriminate|assumption].
  - discriminate.
Qed.

(** ** The geohash model *)

Module GeohashFacts.

Import Geohash GeohashSpec.
Local Open Scope Q_scope.

Lemma encode_step_fields lat lon st :
  let b := enc_bit lat lon st in
  let c := if b then N.lor (ch st) (nth (bit st) bits 0%N) else ch st in
  ((bit st < 4)%nat ->
     geohash (encode_step lat lon st) = geohash st /\
     bit (encode_step lat lon st) = S (bit st) /\
     ch (encode_step lat lon st) = c) /\
  (bit st = 4%nat ->
     geohash (encode_step lat lon st) = geohash st ++ String (base32_char c) "" /\
     bit (encode_step lat lon st) = 0%nat /\
     ch (encode_step lat lon st) = 0%N).
Proof.
  intros b c. unfold encode_step. fold (enc_bit lat lon st). fold b. fold c.
  split; intros H.
  - destruct (Nat.ltb_spec (bit st) 4); [repeat split|lia].
  - rewrite H. cbn. repeat split.
Qed.

Lemma sync_step lat lon st ds cd mask :
  sync st ds ->
  negb (N.eqb (N.land cd mask) 0) = enc_bit lat lon st ->
  sync (encode_step lat lon st) (decode_bit cd mask ds).
Proof.
  destruct st as [lati loni gh b c0 ev], ds as [dlat dlon elat elon dev].
  unfold sync, enc_bit, encode_step, decode_bit.
  cbn [d_lat_interval d_lon_interval is_even lat_interval lon_interval even bit ch geohash].
  intros (-> & -> & ->) ->.
  destruct ev, (Qgt_bool _ _), (b <? 4)%nat; cbn; repeat split.
Qed.

Lemma decode_char_unfold cd ds :
  decode_char cd ds
  = decode_bit cd 1 (decode_bit cd 2 (decode_bit cd 4
      (decode_bit cd 8 (decode_bit cd 16 ds)))).
Proof. reflexivity. Qed.

(** One character: the encoder appends the character of the five bits it
    chose, and the decoder, reading that character, makes the same five
    choices. *)
Lemma five_steps_char lat lon st ds :
  bit st = 0%nat -> ch st = 0%N -> sync st ds ->
  exists c cd,
    geohash (five_steps lat lon st) = geohash st ++ String c "" /\
    bit (five_steps lat lon st) = 0%nat /\
    ch (five_steps lat lon st) = 0%N /\
    decodemap c = Some cd /\
    sync (five_steps lat lon st) (decode_char cd ds).
Proof.
  intros Hb Hc Hs. unfold five_steps.
  pose proof (sync_step lat lon st ds) as S0.
  destruct (encode_step_fields lat lon st) as [F0 _].
  destruct (F0 ltac:(lia)) as (G0 & B0 & C0); clear F0.
  remember (encode_step lat lon st) as s1 eqn:E1.
  destruct (encode_step_fields lat lon s1) as [F1 _].
  destruct (F1 ltac:(lia)) as (G1 & B1 & C1); clear F1.
  remember (encode_step lat lon s1) as s2 eqn:E2.
  destruct (encode_step_fields lat lon s2) as [F2 _].
  destruct (F2 ltac:(lia)) as (G2 & B2 & C2); clear F2.
  remember (encode_step lat lon s2) as s3 eqn:E3.
  destruct (encode_step_fields lat lon s3) as [F3 _].
  destruct (F3 ltac:(lia)) as (G3 & B3 & C3); clear F3.
  remember (encode_step lat lon s3) as s4 eqn:E4.
  destruct (encode_step_fields lat lon s4) as [_ F4].
  destruct (F4 ltac:(lia)) as (G4 & B4 & C4); clear F4.
  rewrite G4, B4, C4, G3, G2, G1, G0, C3, C2, C1, C0, B3, B2, B1, B0, Hb, Hc.
  cbn [nth bits].
  assert (forall cd,
    negb (N.eqb (N.land cd 16) 0) = enc_bit lat lon st ->
    negb (N.eqb (N.land cd 8) 0) = enc_bit lat lon s1 ->
    negb (N.eqb (N.land cd 4) 0) = enc_bit lat lon s2 ->
    negb (N.eqb (N.land cd 2) 0) = enc_bit lat lon s3 ->
    negb (N.eqb (N.land cd 1) 0) = enc_bit lat lon s4 ->
    sync (encode_step lat lon s4) (decode_char cd ds)) as Hsync.
  { intros cd H0 H1 H2 H3 H4. rewrite decode_char_unfold.
    apply sync_step; [|exact H4]. rewrite E4.
    apply sync_step; [|exact H3]. rewrite E3.
    apply sync_step; [|exact H2]. rewrite E2.
    apply sync_step; [|exact H1]. rewrite E1.
    apply sync_step; [exact Hs|exact H0]. }
  revert Hsync.
  generalize (enc_bit lat lon st) (enc_bit lat lon s1) (enc_bit lat lon s2)
             (enc_bit lat lon s3) (enc_bit lat lon s4).
  generalize (encode_step lat lon s4). clear.
  intros s5 b0 b1 b2 b3 b4 Hsync.
  destruct b0, b1, b2, b3, b4;
    (eexists; eexists; split; [reflexivity|]; split; [reflexivity|];
     split; [reflexivity|]; split; [reflexivity|]; apply Hsync; reflexivity).
Qed.

Lemma encode_loop_step fuel lat lon precision st :
  (String.length (geohash st) < precision)%nat ->
  encode_loop (S fuel) lat lon precision st
  = encode_loop fuel lat lon precision (encode_step lat lon st).
Proof.
  intros H. cbn [encode_loop].
  destruct (Nat.ltb_spec (String.length (geohash st)) precision); [reflexivity|lia].
Qed.

Lemma encode_loop_five fuel lat lon precision st :
  bit st = 0%nat ->
  (String.length (geohash st) < precision)%nat ->
  encode_loop (5 + fuel) lat lon precision st
  = encode_loop fuel lat lon precision (five_steps lat lon st).
Proof.
  intros Hb Hl. unfold five_steps. cbn [Nat.add].
  destruct (encode_step_fields lat lon st) as [F0 _].
  destruct (F0 ltac:(lia)) as (G0 & B0 & _); clear F0.
  remember (encode_step lat lon st) as s1 eqn:E1.
  destruct (encode_step_fields lat lon s1) as [F1 _].
  destruct (F1 ltac:(lia)) as (G1 & B1 & _); clear F1.
  remember (encode_step lat lon s1) as s2 eqn:E2.
  destruct (encode_step_fields lat lon s2) as [F2 _].
  destruct (F2 ltac:(lia)) as (G2 & B2 & _); clear F2.
  remember (encode_step lat lon s2) as s3 eqn:E3.
  destruct (encode_step_fields lat lon s3) as [F3 _].
  destruct (F3 ltac:(lia)) as (G3 & B3 & _); clear F3.
  remember (encode_step lat lon s3) as s4 eqn:E4.
  rewrite (encode_loop_step _ _ _ _ st) by exact Hl. rewrite <- E1.
  rewrite (encode_loop_step _ _ _ _ s1) by congruence. rewrite <- E2.
  rewrite (encode_loop_step _ _ _ _ s2) by congruence. rewrite <- E3.
  rewrite (encode_loop_step _ _ _ _ s3) by congruence. rewrite <- E4.
  rewrite (encode_loop_step _ _ _ _ s4) by congruence. reflexivity.
Qed.

Lemma string_app_nil_r s : s ++ "" = s.
Proof.
  induction s as [|c s IH]; [reflexivity|].
  rewrite string_app_cons, IH. reflexivity.
Qed.

(** The loop of [encode] appends [n] characters in [5 * n] iterations, and
    [decode_exactly] retraces them. *)
Lemma encode_chars lat lon precision n : forall st ds,
  bit st = 0%nat -> ch st = 0%N -> sync st ds ->
  (String.length (geohash st) + n = precision)%nat ->
  exists s' ds',
    geohash (encode_loop (5 * n) lat lon precision st) = geohash st ++ s' /\
    String.length s' = n /\
    decode_chars s' ds = Some ds' /\
    sync (encode_loop (5 * n) lat lon precision st) ds'.
Proof.
  induction n as [|n IH]; intros st ds Hb Hc Hs Hl.
  - exists "", ds. cbn [Nat.mul encode_loop decode_chars].
    rewrite string_app_nil_r. auto.
  - replace (5 * S n)%nat with (5 + 5 * n)%nat by lia.
    rewrite encode_loop_five by (assumption || lia).
    destruct (five_steps_char lat lon st ds Hb Hc Hs)
      as (c & cd & G & B & C & D & S5).
    destruct (IH (five_steps lat lon st) (decode_char cd ds) B C S5)
      as (s' & ds' & G' & L' & D' & S').
    { rewrite G, string_app_length. cbn [String.length]. lia. }
    exists (String c s'), ds'. repeat split.
    + rewrite G', G, string_app_assoc. reflexivity.
    + cbn [String.length]. rewrite L'. reflexivity.
    + cbn [decode_chars]. rewrite D. exact D'.
    + apply S'.
    + apply S'.
    + apply S'.
Qed.

(** [encode] returns exactly [precision] characters. *)
Lemma length_encode lat lon precision :
  String.length (encode lat lon precision) = precision.
Proof.
  unfold encode.
  destruct (encode_chars lat lon precision precision enc_init dec_init)
    as (s' & ds' & G & L & _); try reflexivity.
  - repeat split.
  - rewrite G. exact L.
Qed.

(** *** The point stays in the cell *)

Lemma inside_half x i :
  inside x i ->
  inside x (if Qgt_bool x (mid i) then upper_half i else lower_half i).
Proof.
  unfold inside, Qgt_bool, upper_half, lower_half. intros [Hlo Hhi].
  destruct (Qle_bool x (mid i)) eqn:E; cbn [negb fst snd].
  - apply Qle_bool_iff in E. split; assumption.
  - split; [|assumption]. apply Qlt_le_weak, Qnot_le_lt.
    intros H. apply Qle_bool_iff in H. congruence.
Qed.

Lemma encode_step_inside lat lon st :
  inside lat (lat_interval st) -> inside lon (lon_interval st) ->
  inside lat (lat_interval (encode_step lat lon st)) /\
  inside lon (lon_interval (encode_step lat lon st)).
Proof.
  intros Hlat Hlon. unfold encode_step.
  pose proof (inside_half lat _ Hlat). pose proof (inside_half lon _ Hlon).
  destruct (even st), (bit st <? 4)%nat;
    cbn [lat_interval lon_interval]; split; assumption.
Qed.

Lemma encode_loop_inside lat lon precision fuel : forall st,
  inside lat (lat_interval st) -> inside lon (lon_interval st) ->
  inside lat (lat_interval (encode_loop fuel lat lon precision st)) /\
  inside lon (lon_interval (encode_loop fuel lat lon precision st)).
Proof.
  induction fuel as [|fuel IH]; intros st Hlat Hlon; cbn [encode_loop].
  - split; assumption.
  - destruct (_ <? _)%nat; [|split; assumption].
    destruct (encode_step_inside lat lon st Hlat Hlon). apply IH; assumption.
Qed.

(** *** The error margins are the half-widths of the cell *)

Lemma Qhalf x : x / 2 == (1 # 2) * x.
Proof. field. Qed.

Lemma half_width_half i err (b : bool) :
  half_width i err ->
  half_width (if b then upper_half i else lower_half i) (err / 2).
Proof.
  unfold half_width, upper_half, lower_half, mid. intros H.
  destruct b; cbn [fst snd]; rewrite !Qhalf; lra.
Qed.

Lemma decode_bit_margins cd mask ds :
  margins ds -> margins (decode_bit cd mask ds).
Proof.
  unfold margins, decode_bit. intros [Hlat Hlon].
  destruct (is_even ds); cbn [d_lat_interval d_lon_interval lat_err lon_err];
    split; assumption || apply half_width_half; assumption.
Qed.

Lemma decode_chars_margins s : forall ds ds',
  margins ds -> decode_chars s ds = Some ds' -> margins ds'.
Proof.
  induction s as [|c s IH]; intros ds ds' Hm; cbn [decode_chars].
  - intros [= <-]. exact Hm.
  - destruct (decodemap c) as [cd|]; [|discriminate].
    apply IH. rewrite decode_char_unfold.
    repeat apply decode_bit_margins. exact Hm.
Qed.

(** *** The margins depend on the number of characters only *)

Lemma decode_bit_err cd mask ds :
  err_state (decode_bit cd mask ds) = err_step (err_state ds).
Proof. unfold err_state, decode_bit. destruct (is_even ds); reflexivity. Qed.

Lemma decode_chars_err s : forall ds ds',
  decode_chars s ds = Some ds' ->
  err_state ds' = Nat.iter (5 * String.length s) err_step (err_state ds).
Proof.
  induction s as [|c s IH]; intros ds ds'; cbn [decode_chars].
  - intros [= <-]. reflexivity.
  - destruct (decodemap c) as [cd|]; [|discriminate].
    intros H. rewrite (IH _ _ H), decode_char_unfold, !decode_bit_err.
    cbn [String.length].
    replace (5 * S (String.length s))%nat with (5 * String.length s + 5)%nat by lia.
    rewrite Nat.iter_add. reflexivity.
Qed.

(** *** Round trip *)

Lemma Qabs_centre x i err :
  inside x i -> half_width i err -> Qabs (x - mid i) <= err.
Proof.
  unfold inside, half_width, mid. intros [Hlo Hhi] Hw.
  apply Qabs_Qle_condition. rewrite Qhalf. split; lra.
Qed.

(** Decoding an 8-character geohash of a point of the globe gives the centre
    of a cell of half-width [90 / 2^20] by [180 / 2^20] that contains the
    point. *)
Theorem decode_encode lat lon :
  -90 <= lat <= 90 -> -180 <= lon <= 180 ->
  exists lat' lon' elat elon,
    decode_exactly (encode lat lon 8) = Some (lat', lon', elat, elon) /\
    elat == 90 / 1048576 /\ elon == 180 / 1048576 /\
    Qabs (lat - lat') <= elat /\ Qabs (lon - lon') <= elon.
Proof.
  intros Hlat Hlon. unfold decode_exactly, encode.
  destruct (encode_chars lat lon 8 8 enc_init dec_init)
    as (s' & ds' & G & L & D & S); try reflexivity.
  { repeat split. }
  destruct (encode_loop_inside lat lon 8 (5 * 8) enc_init) as [Ilat Ilon];
    [exact Hlat|exact Hlon|].
  assert (margins ds') as [Mlat Mlon].
  { eapply decode_chars_margins; [|exact D]. split; reflexivity. }
  pose proof (decode_chars_err _ _ _ D) as E. rewrite L in E.
  destruct S as (Slat & Slon & _).
  rewrite G. cbn [geohash enc_init]. rewrite string_app_nil_l, D.
  rewrite <- Slat in Ilat. rewrite <- Slon in Ilon.
  set (e := Nat.iter (5 * 8) err_step (err_state dec_init)) in E.
  vm_compute in e. subst e. injection E as Elat Elon _.
  do 4 eexists. split; [reflexivity|].
  split; [rewrite Elat; reflexivity|].
  split; [rewrite Elon; reflexivity|].
  split; apply Qabs_centre; assumption.
Qed.

End GeohashFacts.

(** ** Records of a job sequence *)

Lemma job_record_fields out format j now :
  job_record out format j now =
  [("bin_id", PyStr (job_bin_id j));
   ("category", PyStr (job_category j));
   ("latitude", PyFloat (loc_lat (job_location j)));
   ("longitude", PyFloat (loc_lng (job_location j)));
   ("geohash", PyStr (Geohash.encode (loc_lat (job_location j))
                                      (loc_lng (job_location j)) 8));
   ("generated_at", PyStr now);
   ("version", PyStr "1.0");
   ("location_name", PyStr (loc_name (job_location j)));
   ("qr_file", PyStr (job_filepath out format j));
   ("filename", PyStr (job_filename j))].
Proof. reflexivity. Qed.

Lemma length_job_records env out format t js :
  length (job_records env out format t js) = length js.
Proof.
  revert t. induction js as [|j js IH]; intros t; [reflexivity|].
  cbn [job_records length]. rewrite IH. reflexivity.
Qed.

Lemma nth_error_job_records env out format js : forall t i,
  nth_error (job_records env out format t js) i
  = option_map (fun j => job_record out format j (clock env (t + i)))
               (nth_error js i).
Proof.
  induction js as [|j js IH]; intros t [|i]; try reflexivity.
  - cbn [job_records nth_error option_map]. rewrite Nat.add_0_r. reflexivity.
  - cbn [job_records nth_error]. rewrite IH. rewrite Nat.add_succ_comm. reflexivity.
Qed.

Lemma map_get_job_records env out format k (f : job -> pyval) js :
  (forall j now, Dict.get k (job_record out format j now) = Some (f j)) ->
  forall t, map (Dict.get k) (job_records env out format t js)
            = map (fun j => Some (f j)) js.
Proof.
  intros Hk. induction js as [|j js IH]; intros t; [reflexivity|].
  cbn [job_records map]. rewrite Hk, IH. reflexivity.
Qed.

(** ** The world after a job sequence *)

Section JobWorld.

Variables (env : Env) (out format : string).

Lemma jobs_ticks js : forall w, ticks (fold_left (job_world env out format) js w) = (ticks w + length js)%nat.
Proof.
  induction js as [|j js IH]; intros w; cbn [fold_left length]; [lia|].
  rewrite IH. cbn [job_world ticks]. lia.
Qed.

Lemma jobs_dirs js : forall w, dirs (fold_left (job_world env out format) js w) = dirs w.
Proof.
  induction js as [|j js IH]; intros w; cbn [fold_left]; [reflexivity|].
  rewrite IH. reflexivity.
Qed.

Lemma jobs_trace js : forall w,
  trace (fold_left (job_world env out format) js w) = (trace w ++ job_events env out format (ticks w) js)%list.
Proof.
  induction js as [|j js IH]; intros w; cbn [fold_left job_events].
  - rewrite app_nil_r. reflexivity.
  - rewrite IH. cbn [job_world ticks trace]. rewrite <- app_assoc. reflexivity.
Qed.

Lemma jobs_files_other js p : forall w,
  ~ In p (map (job_filepath out format) js) ->
  files (fold_left (job_world env out format) js w) !! p = files w !! p.
Proof.
  induction js as [|j js IH]; intros w Hp; cbn [fold_left]; [reflexivity|].
  cbn [map In] in Hp. rewrite IH by tauto.
  cbn [job_world files]. apply lookup_insert_ne. tauto.
Qed.

Lemma jobs_files_written js p : forall w,
  In p (map (job_filepath out format) js) ->
  is_Some (files (fold_left (job_world env out format) js w) !! p).
Proof.
  induction js as [|j js IH]; intros w Hp; cbn [fold_left]; [destruct Hp|].
  destruct (in_dec string_dec p (map (job_filepath out format) js)) as [Hin|Hout].
  - apply IH, Hin.
  - rewrite jobs_files_other by assumption.
    destruct Hp as [<-|Hp]; [|contradiction].
    cbn [job_world files]. rewrite lookup_insert_eq. eauto.
Qed.

Lemma written_paths_job_events js : forall t,
  written_paths (job_events env out format t js)
  = map (job_filepath out format) js.
Proof.
  induction js as [|j js IH]; intros t; [reflexivity|].
  cbn [job_events]. unfold written_paths, writes in *.
  cbn [flat_map app map fst]. rewrite IH. reflexivity.
Qed.

Lemma qr_payloads_job_events js : forall t i,
  nth_error (qr_payloads (job_events env out format t js)) i
  = option_map
      (fun j => Json.dumps_compact (PyDict (job_payload j (clock env (t + i)))))
      (nth_error js i).
Proof.
  induction js as [|j js IH]; intros t [|i]; try reflexivity.
  - cbn [job_events qr_payloads flat_map app nth_error option_map].
    rewrite Nat.add_0_r. reflexivity.
  - cbn [job_events]. unfold qr_payloads in *. cbn [flat_map app nth_error].
    rewrite IH, Nat.add_succ_comm. reflexivity.
Qed.

Lemma length_qr_payloads_job_events js : forall t,
  length (qr_payloads (job_events env out format t js)) = length js.
Proof.
  induction js as [|j js IH]; intros t; [reflexivity|].
  cbn [job_events]. unfold qr_payloads in *. cbn [flat_map app length].
  rewrite IH. reflexivity.
Qed.

End JobWorld.

Lemma written_paths_app t1 t2 :
  written_paths (t1 ++ t2) = (written_paths t1 ++ written_paths t2)%list.
Proof. unfold written_paths, writes. rewrite flat_map_app, map_app. reflexivity. Qed.

Lemma qr_payloads_app t1 t2 :
  qr_payloads (t1 ++ t2) = (qr_payloads t1 ++ qr_payloads t2)%list.
Proof. unfold qr_payloads. apply flat_map_app. Qed.

(** ** The two modes *)

Lemma generate_jobs env self args w :
  generate env self args w
  = foldM (run_job env self (arg_format args)) (jobs_of args) []
          (announced w (banner args)).
Proof.
  unfold generate, jobs_of, banner.
  destruct (arg_test_only args).
  - rewrite generate_test_bins_jobs. reflexivity.
  - rewrite generate_all_bins_jobs. reflexivity.
Qed.

Lemma generate_inv env self args w bins w' :
  generate env self args w = (Ok bins, w') ->
  bins = job_records env (output_dir self) (arg_format args) (ticks w) (jobs_of args) /\
  w' = fold_left (job_world env (output_dir self) (arg_format args)) (jobs_of args)
                 (announced w (banner args)).
Proof. rewrite generate_jobs. intros H%run_jobs_inv. exact H. Qed.

Lemma generate_ok env self args w :
  no_faults env ->
  generate env self args w
  = (Ok (job_records env (output_dir self) (arg_format args) (ticks w) (jobs_of args)),
     fold_left (job_world env (output_dir self) (arg_format args)) (jobs_of args)
               (announced w (banner args))).
Proof. intros H. rewrite generate_jobs, run_jobs_ok by exact H. reflexivity. Qed.

Lemma generate_raises env self args w e w' :
  generate env self args w = (Raise e, w') -> exists msg, e = Exception msg.
Proof.
  rewrite generate_jobs. intros H.
  destruct (run_jobs_cases env self (arg_format args) (jobs_of args) []
              (announced w (banner args))) as [H'|(msg & k & j & _ & H')];
    rewrite H' in H; [discriminate|].
  inversion H. eauto.
Qed.

(** ** The manifest writer *)

Lemma save_bin_manifest_cases env self bins w :
  save_bin_manifest env self bins w =
  match os_error env (manifest_path (output_dir self)) with
  | Some msg => (Raise (Exception msg), ticked w)
  | None => (Ok (manifest_path (output_dir self)),
             manifest_world env (output_dir self) bins w)
  end.
Proof.
  unfold save_bin_manifest, bind, utcnow_isoformat, write_file, print, emit, ret, raise.
  fold (manifest_path (output_dir self)).
  destruct (os_error env (manifest_path (output_dir self))); [reflexivity|].
  unfold manifest_world, manifest_json. cbn [files dirs ticks trace].
  rewrite <- app_assoc. reflexivity.
Qed.

(** ** The driver *)

Lemma main_try_cases env generator args w :
  main_try env generator args w =
  match generate env generator args w with
  | (Raise e, w1) => (Raise e, w1)
  | (Ok bins, w1) =>
      match save_bin_manifest env generator bins w1 with
      | (Raise e, w2) => (Raise e, w2)
      | (Ok path, w2) => (Ok tt, fold_left announced (report args bins path) w2)
      end
  end.
Proof.
  unfold main_try, bind. fold (generate env generator args).
  destruct (generate env generator args w) as [[bins|e] w1]; [|reflexivity].
  destruct (save_bin_manifest env generator bins w1) as [[path|e] w2]; reflexivity.
Qed.

Lemma announced_files lines : forall w,
  files (fold_left announced lines w) = files w.
Proof.
  induction lines as [|l lines IH]; intros w; [reflexivity|].
  cbn [fold_left]. rewrite IH. reflexivity.
Qed.

Lemma announced_written lines : forall w,
  written_paths (trace (fold_left announced lines w)) = written_paths (trace w).
Proof.
  induction lines as [|l lines IH]; intros w; [reflexivity|].
  cbn [fold_left]. rewrite IH. unfold announced. cbn [trace].
  rewrite written_paths_app. apply app_nil_r.
Qed.

Lemma main_try_ok env self args w :
  no_faults env ->
  main_try env self args w
  = (Ok tt,
     fold_left announced
       (report args (run_bins env self args w) (manifest_path (output_dir self)))
       (manifest_world env (output_dir self) (run_bins env self args w)
          (generated_world env self args w))).
Proof.
  intros Hnf. rewrite main_try_cases, generate_ok by exact Hnf.
  rewrite save_bin_manifest_cases. destruct Hnf as [Hos _]. rewrite Hos.
  reflexivity.
Qed.

Lemma main_try_raises env self args w e w' :
  main_try env self args w = (Raise e, w') -> exists msg, e = Exception msg.
Proof.
  rewrite main_try_cases.
  destruct (generate env self args w) as [[bins|e1] w1] eqn:Hg.
  - rewrite save_bin_manifest_cases.
    destruct (os_error env _) as [msg|]; intros H; inversion H. eauto.
  - intros H; inversion H; subst. eapply generate_raises, Hg.
Qed.

Lemma init_cases env out w :
  init env out w =
  if path_exists w out then (Ok {| output_dir := out |}, w)
  else match os_error env out with
       | Some msg => (Raise (Exception msg), w)
       | None => (Ok {| output_dir := out |}, created out w)
       end.
Proof.
  unfold init, ensure_output_dir, bind, os_path_exists, path_exists.
  cbn [output_dir].
  destruct (match files w !! out with Some _ => true | None => _ end);
    cbn [negb]; [reflexivity|].
  unfold os_makedirs, print, emit, ret, raise.
  destruct (os_error env out); [reflexivity|].
  unfold created. cbn [files dirs ticks trace]. rewrite <- app_assoc. reflexivity.
Qed.

Lemma main_cases env argv w :
  main env argv w =
  match parse_args env argv with
  | inr code => (Raise (SystemExit code), w)
  | inl args =>
      match init env (arg_output_dir args) w with
      | (Raise e, w1) => (Raise e, w1)
      | (Ok generator, w1) =>
          match main_try env generator args w1 with
          | (Ok _, w2) => (Ok 0, w2)
          | (Raise (Exception msg), w2) => (Ok 1, announced w2 (error_line msg))
          | (Raise (SystemExit code), w2) => (Raise (SystemExit code), w2)
          end
      end
  end.
Proof.
  unfold main, bind, parser_parse_args, try_except, ret, raise.
  destruct (parse_args env argv) as [args|code]; [|reflexivity].
  destruct (init env (arg_output_dir args) w) as [[generator|e] w1]; [|reflexivity].
  destruct (main_try env generator args w1) as [[[]|[msg|code]] w2]; reflexivity.
Qed.

(** ** The example environments *)

Lemma demo_env_no_faults : no_faults demo_env.
Proof. split; [reflexivity|]. intros d p. eexists. reflexivity. Qed.

Lemma demo_test_run_eq :
  generate_test_bins demo_env demo_generator 2 "PNG" empty_world
  = (Ok demo_test_bins, demo_test_world).
Proof. vm_compute. reflexivity. Qed.

(** ** Bin identifiers *)

Lemma full_bin_ids_NoDup : List.NoDup (map job_bin_id (map full_job all_pairs)).
Proof. apply NoDup_ListNoDup, (bool_decide_unpack _). vm_compute. exact I. Qed.

Lemma test_bin_ids_NoDup count :
  List.NoDup (map job_bin_id (map test_job (range count))).
Proof.
  rewrite map_map. apply Injective_map_NoDup.
  - intros i j. apply test_bin_id_inj.
  - apply seq_NoDup.
Qed.

Lemma jobs_bin_ids_NoDup args : List.NoDup (map job_bin_id (jobs_of args)).
Proof.
  unfold jobs_of. destruct (arg_test_only args).
  - apply test_bin_ids_NoDup.
  - apply full_bin_ids_NoDup.
Qed.

Lemma generate_bin_ids env self args w bins w' :
  generate env self args w = (Ok bins, w') ->
  map (Dict.get "bin_id") bins
  = map (fun id => Some (PyStr id)) (map job_bin_id (jobs_of args)).
Proof.
  intros [-> _]%generate_inv. rewrite map_map.
  apply (map_get_job_records _ _ _ _ (fun j => PyStr (job_bin_id j))).
  reflexivity.
Qed.

(** C1: within one run of either mode, every record carries a bin_id and no
    two records of the returned list carry the same one. *)
Theorem bin_ids_unique env self format count w bins w' :
  generate_all_bins env self format w = (Ok bins, w') \/
  generate_test_bins env self count format w = (Ok bins, w') ->
  exists ids,
    map (Dict.get "bin_id") bins = map (fun id => Some (PyStr id)) ids /\
    List.NoDup ids.
Proof.
  intros [H|H].
  - pose (args := {| arg_output_dir := output_dir self; arg_format := format;
                     arg_test_only := false; arg_count := count |}).
    exists (map job_bin_id (jobs_of args)). split.
    + eapply (generate_bin_ids env self args). exact H.
    + apply jobs_bin_ids_NoDup.
  - pose (args := {| arg_output_dir := output_dir self; arg_format := format;
                     arg_test_only := true; arg_count := count |}).
    exists (map job_bin_id (jobs_of args)). split.
    + eapply (generate_bin_ids env self args). exact H.
    + apply jobs_bin_ids_NoDup.
Qed.

Lemma bin_ids_unique_witness :
  exists ids,
    map (Dict.get "bin_id") demo_test_bins = map (fun id => Some (PyStr id)) ids /\
    List.NoDup ids.
Proof.
  apply (bin_ids_unique demo_env demo_generator "PNG" 2 empty_world
           demo_test_bins demo_test_world).
  right. vm_compute. reflexivity.
Defined.

(** ** The manifest *)

(** C2: the manifest object that is serialized has [total_bins] equal to the
    length of [bins], and [bins] is the list passed in, in order. *)
Theorem manifest_total_bins env self bins w :
  os_error env (manifest_path (output_dir self)) = None ->
  let m := manifest (clock env (ticks w)) bins in
  exists w',
    save_bin_manifest env self bins w = (Ok (manifest_path (output_dir self)), w') /\
    files w' !! manifest_path (output_dir self)
      = Some (Json.dumps_indent2 (PyDict m)) /\
    Dict.get "bins" m = Some (PyList (map PyDict bins)) /\
    Dict.get "total_bins" m = Some (PyInt (Z.of_nat (length (map PyDict bins)))) /\
    length (map PyDict bins) = length bins.
Proof.
  intros Hos m. rewrite save_bin_manifest_cases, Hos.
  eexists. split; [reflexivity|]. split.
  - cbn [manifest_world files]. apply lookup_insert_eq.
  - split; [reflexivity|]. split; [|apply length_map].
    rewrite length_map. reflexivity.
Qed.

Lemma manifest_total_bins_witness :
  os_error demo_env (manifest_path "out") = None /\
  exists w',
    save_bin_manifest demo_env demo_generator demo_test_bins demo_test_world
      = (Ok (manifest_path "out"), w') /\
    Dict.get "total_bins" (manifest (clock demo_env (ticks demo_test_world)) demo_test_bins)
      = Some (PyInt 2).
Proof.
  split; [reflexivity|].
  destruct (manifest_total_bins demo_env demo_generator demo_test_bins
              demo_test_world eq_refl) as (w' & H & _ & _ & T & _).
  exists w'. split; [exact H|exact T].
Defined.

(** C9: the manifest writer writes pretty-printed JSON to
    [<output_dir>/bin_manifest.json], whatever was there before, and to no
    other path. *)
Theorem manifest_written_in_place env self bins w :
  let path := os_path_join (output_dir self) "bin_manifest.json" in
  let json := Json.dumps_indent2 (PyDict (manifest (clock env (ticks w)) bins)) in
  os_error env path = None ->
  exists w',
    save_bin_manifest env self bins w = (Ok path, w') /\
    files w' !! path = Some json /\
    (forall p, p <> path -> files w' !! p = files w !! p) /\
    dirs w' = dirs w /\
    writes (trace w') = (writes (trace w) ++ [(path, json)])%list.
Proof.
  intros path json Hos. rewrite save_bin_manifest_cases.
  fold path in Hos |- *. unfold manifest_path. fold path. rewrite Hos.
  eexists. split; [reflexivity|]. cbn [manifest_world files dirs trace].
  unfold manifest_path, manifest_json. fold path json.
  split; [apply lookup_insert_eq|].
  split; [intros p Hp; apply lookup_insert_ne; congruence|].
  split; [reflexivity|].
  unfold writes. rewrite flat_map_app. reflexivity.
Qed.

Lemma manifest_written_in_place_witness :
  exists w',
    save_bin_manifest demo_env demo_generator [] used_world
      = (Ok "out/bin_manifest.json", w') /\
    files w' !! "out/bin_manifest.json"
      = Some (Json.dumps_indent2 (PyDict (manifest "2024-05-01T12:00:07" []))) /\
    files w' !! "out/notes.txt" = Some "keep me".
Proof.
  destruct (manifest_written_in_place demo_env demo_generator [] used_world eq_refl)
    as (w' & H & Hnew & Hother & _).
  exists w'. split; [exact H|]. split; [exact Hnew|].
  rewrite Hother by discriminate. reflexivity.
Defined.

(** ** A whole run *)

Lemma jobs_good args j : In j (jobs_of args) -> good_filename j = true.
Proof.
  unfold jobs_of. destruct (arg_test_only args); intros Hj.
  - apply in_map_iff in Hj as (i & <- & _). apply good_filename_test.
  - revert j Hj. apply forallb_forall. exact good_filename_full.
Qed.

Lemma manifest_not_image args out format :
  ~ In (manifest_path out) (map (job_filepath out format) (jobs_of args)).
Proof.
  intros (j & Hp & Hj)%in_map_iff.
  eapply job_filepath_not_manifest; [eapply jobs_good, Hj|exact Hp].
Qed.

Lemma run_qr_files env out format js : forall t,
  map (Dict.get "qr_file") (job_records env out format t js)
  = map (fun p => Some (PyStr p)) (map (job_filepath out format) js).
Proof.
  intros t. rewrite map_map.
  apply (map_get_job_records _ _ _ _ (fun j => PyStr (job_filepath out format j))).
  reflexivity.
Qed.

Lemma generated_world_ticks env self args w :
  ticks (generated_world env self args w) = (ticks w + length (jobs_of args))%nat.
Proof. unfold generated_world. rewrite jobs_ticks. reflexivity. Qed.

Lemma generated_world_written env self args w :
  written_paths (trace (generated_world env self args w))
  = (written_paths (trace w)
     ++ map (job_filepath (output_dir self) (arg_format args)) (jobs_of args))%list.
Proof.
  unfold generated_world. rewrite jobs_trace, written_paths_app.
  rewrite written_paths_job_events. unfold announced. cbn [trace].
  rewrite written_paths_app. cbn. rewrite app_nil_r. reflexivity.
Qed.

Lemma generated_world_files env self args w p :
  In p (map (job_filepath (output_dir self) (arg_format args)) (jobs_of args)) ->
  is_Some (files (generated_world env self args w) !! p).
Proof. apply jobs_files_written. Qed.

(** What a run leaves behind when nothing fails. *)
Lemma run_ok env self args w :
  no_faults env ->
  let out := output_dir self in
  let bins := run_bins env self args w in
  let w1 := generated_world env self args w in
  let paths := map (job_filepath out (arg_format args)) (jobs_of args) in
  exists w',
    generate env self args w = (Ok bins, w1) /\
    main_try env self args w = (Ok tt, w') /\
    written_paths (trace w') = (written_paths (trace w) ++ paths ++ [manifest_path out])%list /\
    files w' !! manifest_path out
      = Some (Json.dumps_indent2 (PyDict (manifest (clock env (ticks w1)) bins))) /\
    (forall p, In p paths -> is_Some (files w' !! p)).
Proof.
  intros Hnf out bins w1 paths. eexists.
  split; [apply generate_ok, Hnf|].
  split; [apply main_try_ok, Hnf|].
  fold out bins w1. split; [|split].
  - rewrite announced_written. unfold manifest_world. cbn [trace].
    rewrite written_paths_app. unfold w1. rewrite generated_world_written.
    rewrite <- app_assoc. reflexivity.
  - rewrite announced_files. cbn [manifest_world files]. apply lookup_insert_eq.
  - intros p Hp. rewrite announced_files. cbn [manifest_world files].
    rewrite lookup_insert_ne.
    + apply generated_world_files, Hp.
    + intros <-. eapply manifest_not_image, Hp.
Qed.

Lemma test_filepaths_NoDup out format count :
  List.NoDup (map (job_filepath out format) (map test_job (range count))).
Proof.
  rewrite map_map. apply Injective_map_NoDup; [|apply seq_NoDup].
  intros i j H. apply test_filename_inj.
  eapply job_filepath_inj; [apply good_filename_test..|exact H].
Qed.

Lemma nth_error_range n i :
  (Z.of_nat i < n)%Z -> nth_error (range n) i = Some i.
Proof.
  intros H. unfold range.
  rewrite (nth_error_nth' _ 0%nat) by (rewrite length_seq; lia).
  rewrite seq_nth by lia. reflexivity.
Qed.

(** C4: test mode with count [N] writes [N] image files at [N] different
    paths and returns [N] records, the [i]-th built from location
    [i mod 10] and category [i mod 5]; the manifest lists these records. *)
Theorem test_mode_count env self format (N : Z) w :
  no_faults env -> 0 <= N ->
  let args := {| arg_output_dir := output_dir self; arg_format := format;
                 arg_test_only := true; arg_count := N |} in
  exists bins w1 w' paths,
    generate_test_bins env self N format w = (Ok bins, w1) /\
    Z.of_nat (length bins) = N /\
    (forall i, Z.of_nat i < N ->
       exists r location category,
         nth_error bins i = Some r /\
         nth_error SAMPLE_LOCATIONS (i mod length SAMPLE_LOCATIONS) = Some location /\
         nth_error CATEGORIES (i mod length CATEGORIES) = Some category /\
         Dict.get "category" r = Some (PyStr category) /\
         Dict.get "location_name" r = Some (PyStr (loc_name location)) /\
         Dict.get "latitude" r = Some (PyFloat (loc_lat location)) /\
         Dict.get "longitude" r = Some (PyFloat (loc_lng location))) /\
    map (Dict.get "qr_file") bins = map (fun p => Some (PyStr p)) paths /\
    written_paths (trace w1) = (written_paths (trace w) ++ paths)%list /\
    Z.of_nat (length paths) = N /\
    List.NoDup paths /\
    (forall p, In p paths -> is_Some (files w1 !! p)) /\
    main_try env self args w = (Ok tt, w') /\
    (let m := manifest (clock env (ticks w1)) bins in
     files w' !! manifest_path (output_dir self)
       = Some (Json.dumps_indent2 (PyDict m)) /\
     Dict.get "bins" m = Some (PyList (map PyDict bins)) /\
     Dict.get "total_bins" m = Some (PyInt N)).
Proof.
  intros Hnf HN args.
  destruct (run_ok env self args w Hnf) as (w' & Hg & Hm & Hw & Hf & Hp).
  exists (run_bins env self args w), (generated_world env self args w), w',
    (map (job_filepath (output_dir self) format) (jobs_of args)).
  assert (length (jobs_of args) = Z.to_nat N) as Hlen.
  { unfold jobs_of, args, range. cbn [arg_test_only arg_count].
    rewrite length_map, length_seq. reflexivity. }
  split; [exact Hg|]. split.
  { unfold run_bins. rewrite length_job_records, Hlen. lia. }
  split.
  { intros i Hi. unfold run_bins. rewrite nth_error_job_records.
    unfold jobs_of, args. cbn [arg_test_only arg_count arg_format].
    rewrite nth_error_map, nth_error_range by exact Hi. cbn [option_map].
    eexists _, _, _. split; [reflexivity|].
    split; [apply location_at_mod|]. split; [apply category_at_mod|].
    repeat split. }
  split; [apply run_qr_files|].
  split; [apply (generated_world_written env self args)|].
  split; [rewrite length_map, Hlen; lia|].
  split; [apply test_filepaths_NoDup|].
  split; [apply (generated_world_files env self args)|].
  split; [exact Hm|]. cbn zeta.
  split; [exact Hf|]. split; [reflexivity|].
  cbn [manifest Dict.get String.eqb Ascii.eqb Bool.eqb]. unfold run_bins.
  rewrite length_job_records, Hlen. do 2 f_equal. lia.
Qed.

Lemma test_mode_count_witness :
  no_faults demo_env /\ 0 <= 2 /\
  exists bins w1 paths,
    generate_test_bins demo_env demo_generator 2 "PNG" empty_world = (Ok bins, w1) /\
    Z.of_nat (length bins) = 2 /\
    written_paths (trace w1) = (written_paths (trace empty_world) ++ paths)%list /\
    Z.of_nat (length paths) = 2 /\ List.NoDup paths.
Proof.
  split; [exact demo_env_no_faults|]. split; [lia|].
  destruct (test_mode_count demo_env demo_generator "PNG" 2 empty_world
              demo_env_no_faults ltac:(lia))
    as (bins & w1 & w' & paths & Hg & Hl & _ & _ & Hw & Hn & Hd & _).
  exists bins, w1, paths. repeat split; assumption.
Defined.

Lemma identity_job_records env out format js : forall t,
  map identity (job_records env out format t js)
  = map (fun j => [Some (PyStr (loc_name (job_location j)));
                   Some (PyFloat (loc_lat (job_location j)));
                   Some (PyFloat (loc_lng (job_location j)));
                   Some (PyStr (job_category j));
                   Some (PyStr (job_bin_id j))]) js.
Proof.
  induction js as [|j js IH]; intros t; [reflexivity|].
  cbn [job_records map]. rewrite IH. reflexivity.
Qed.

(** C5: full mode returns one record for each pair of the product of the 10
    locations and the 5 categories, 50 in all, locations outermost; the
    manifest is written once, after the last image, and lists them all. *)
Theorem full_mode_product env self format count w :
  no_faults env ->
  let args := {| arg_output_dir := output_dir self; arg_format := format;
                 arg_test_only := false; arg_count := count |} in
  exists bins w1 w' paths,
    generate_all_bins env self format w = (Ok bins, w1) /\
    length SAMPLE_LOCATIONS = 10%nat /\ length CATEGORIES = 5%nat /\
    length bins = 50%nat /\
    map identity bins
    = map (fun '(loc_idx, location, category) =>
             [Some (PyStr (loc_name location));
              Some (PyFloat (loc_lat location));
              Some (PyFloat (loc_lng location));
              Some (PyStr category);
              Some (PyStr (generate_bin_id (Z.of_nat loc_idx) category))])
          (list_prod (enumerate SAMPLE_LOCATIONS) CATEGORIES) /\
    map (Dict.get "qr_file") bins = map (fun p => Some (PyStr p)) paths /\
    main_try env self args w = (Ok tt, w') /\
    written_paths (trace w')
    = (written_paths (trace w) ++ paths ++ [manifest_path (output_dir self)])%list /\
    ~ In (manifest_path (output_dir self)) paths /\
    (let m := manifest (clock env (ticks w1)) bins in
     files w' !! manifest_path (output_dir self)
       = Some (Json.dumps_indent2 (PyDict m)) /\
     Dict.get "bins" m = Some (PyList (map PyDict bins))).
Proof.
  intros Hnf args.
  destruct (run_ok env self args w Hnf) as (w' & Hg & Hm & Hw & Hf & _).
  exists (run_bins env self args w), (generated_world env self args w), w',
    (map (job_filepath (output_dir self) format) (jobs_of args)).
  split; [exact Hg|]. split; [reflexivity|]. split; [reflexivity|].
  split; [unfold run_bins; rewrite length_job_records; reflexivity|].
  split.
  { unfold run_bins. rewrite identity_job_records.
    unfold jobs_of, args. cbn [arg_test_only]. rewrite map_map.
    apply map_ext. intros [[loc_idx location] category]. reflexivity. }
  split; [apply run_qr_files|].
  split; [exact Hm|]. split; [exact Hw|].
  split; [apply (manifest_not_image args)|].
  cbn zeta. split; [exact Hf|reflexivity].
Qed.

Lemma full_mode_product_witness :
  no_faults demo_env /\
  exists bins w1,
    generate_all_bins demo_env demo_generator "PNG" empty_world = (Ok bins, w1) /\
    length bins = 50%nat.
Proof.
  split; [exact demo_env_no_faults|].
  destruct (full_mode_product demo_env demo_generator "PNG" 5 empty_world
              demo_env_no_faults)
    as (bins & w1 & w' & paths & Hg & _ & _ & Hl & _).
  exists bins, w1. split; assumption.
Defined.

(** C10: whatever the mode and the count, the manifest carries the whole
    static category list and the number of static sample locations. *)
Theorem manifest_static_fields env self args w :
  no_faults env ->
  exists bins w1 w',
    generate env self args w = (Ok bins, w1) /\
    main_try env self args w = (Ok tt, w') /\
    (let m := manifest (clock env (ticks w1)) bins in
     files w' !! manifest_path (output_dir self)
       = Some (Json.dumps_indent2 (PyDict m)) /\
     Dict.get "categories" m
       = Some (PyList [PyStr "recycle"; PyStr "organic"; PyStr "landfill";
                       PyStr "ewaste"; PyStr "hazardous"]) /\
     Dict.get "locations_count" m = Some (PyInt 10)).
Proof.
  intros Hnf.
  destruct (run_ok env self args w Hnf) as (w' & Hg & Hm & _ & Hf & _).
  eexists _, _, w'. split; [exact Hg|]. split; [exact Hm|].
  cbn zeta. split; [exact Hf|]. split; reflexivity.
Qed.

Lemma manifest_static_fields_witness :
  no_faults demo_env /\
  exists bins w1 w',
    generate_test_bins demo_env demo_generator 2 "PNG" empty_world = (Ok bins, w1) /\
    length bins = 2%nat /\
    main_try demo_env demo_generator (test_args 2 "PNG") empty_world = (Ok tt, w') /\
    Dict.get "locations_count" (manifest (clock demo_env (ticks w1)) bins)
      = Some (PyInt 10).
Proof.
  split; [exact demo_env_no_faults|].
  destruct (manifest_static_fields demo_env demo_generator (test_args 2 "PNG")
              empty_world demo_env_no_faults)
    as (bins & w1 & w' & Hg & Hm & _ & _ & Hl).
  exists bins, w1, w'. split; [exact Hg|].
  split; [|split; [exact Hm|exact Hl]].
  change (generate demo_env demo_generator (test_args 2 "PNG") empty_world)
    with (generate_test_bins demo_env demo_generator 2 "PNG" empty_world) in Hg.
  rewrite demo_test_run_eq in Hg. injection Hg as <- _. reflexivity.
Defined.

(** ** Payload JSON *)

Lemma compact_dict7 k1 v1 k2 v2 k3 v3 k4 v4 k5 v5 k6 v6 k7 v7 :
  Json.dumps_compact
    (PyDict [(k1, v1); (k2, v2); (k3, v3); (k4, v4); (k5, v5); (k6, v6); (k7, v7)])
  = "{" ++ Json.encode_str k1 ++ ":" ++ Json.encode None "," ":" 1 v1 ++ ","
        ++ Json.encode_str k2 ++ ":" ++ Json.encode None "," ":" 1 v2 ++ ","
        ++ Json.encode_str k3 ++ ":" ++ Json.encode None "," ":" 1 v3 ++ ","
        ++ Json.encode_str k4 ++ ":" ++ Json.encode None "," ":" 1 v4 ++ ","
        ++ Json.encode_str k5 ++ ":" ++ Json.encode None "," ":" 1 v5 ++ ","
        ++ Json.encode_str k6 ++ ":" ++ Json.encode None "," ":" 1 v6 ++ ","
        ++ Json.encode_str k7 ++ ":" ++ Json.encode None "," ":" 1 v7 ++ "}".
Proof.
  unfold Json.dumps_compact.
  cbn [Json.encode map fst snd Json.wrap Json.newline_indent PyStr.join].
  generalize (Json.encode None "," ":" 1 v1) (Json.encode None "," ":" 1 v2)
             (Json.encode None "," ":" 1 v3) (Json.encode None "," ":" 1 v4)
             (Json.encode None "," ":" 1 v5) (Json.encode None "," ":" 1 v6)
             (Json.encode None "," ":" 1 v7)
             (Json.encode_str k1) (Json.encode_str k2) (Json.encode_str k3)
             (Json.encode_str k4) (Json.encode_str k5) (Json.encode_str k6)
             (Json.encode_str k7).
  intros. rewrite !string_app_nil_l, !string_app_assoc. reflexivity.
Qed.

Lemma payload_json_split j now :
  Json.dumps_compact (PyDict (job_payload j now))
  = payload_head j ++ Json.encode_str "generated_at" ++ ":"
      ++ Json.encode_str now ++ payload_tail.
Proof.
  unfold job_payload. rewrite compact_dict7.
  unfold payload_head, payload_tail. cbn [Json.encode].
  generalize (Json.encode_str "bin_id") (Json.encode_str "category")
             (Json.encode_str "latitude") (Json.encode_str "longitude")
             (Json.encode_str "geohash") (Json.encode_str "generated_at")
             (Json.encode_str "version") (Json.encode_str "1.0").
  intros. rewrite !string_app_assoc. reflexivity.
Qed.

Lemma job_record_get_other out format j now1 now2 k :
  k <> "generated_at" ->
  Dict.get k (job_record out format j now1) = Dict.get k (job_record out format j now2).
Proof.
  intros Hk. rewrite !job_record_fields. cbn [Dict.get].
  repeat match goal with
         | |- context [String.eqb ?a k] => destruct (String.eqb_spec a k)
         end; try reflexivity.
  congruence.
Qed.

(** C3: two runs on the same inputs hand the QR library, bin for bin, JSON
    texts that are byte-identical before and after the value of
    [generated_at], and the records agree on every other key. *)
Theorem payload_json_deterministic env1 env2 self args w1 w2 bins1 bins2 w1' w2' :
  generate env1 self args w1 = (Ok bins1, w1') ->
  generate env2 self args w2 = (Ok bins2, w2') ->
  exists ds1 ds2,
    qr_payloads (trace w1') = (qr_payloads (trace w1) ++ ds1)%list /\
    qr_payloads (trace w2') = (qr_payloads (trace w2) ++ ds2)%list /\
    length ds1 = length bins1 /\ length ds2 = length bins1 /\
    length bins2 = length bins1 /\
    (forall i d1 d2,
       nth_error ds1 i = Some d1 -> nth_error ds2 i = Some d2 ->
       exists head tail,
         d1 = head ++ Json.encode_str "generated_at" ++ ":"
                ++ Json.encode_str (clock env1 (ticks w1 + i)) ++ tail /\
         d2 = head ++ Json.encode_str "generated_at" ++ ":"
                ++ Json.encode_str (clock env2 (ticks w2 + i)) ++ tail) /\
    (forall i r1 r2 k,
       nth_error bins1 i = Some r1 -> nth_error bins2 i = Some r2 ->
       k <> "generated_at" -> Dict.get k r1 = Dict.get k r2).
Proof.
  intros [-> ->]%generate_inv [-> ->]%generate_inv.
  set (out := output_dir self). set (format := arg_format args).
  set (js := jobs_of args).
  exists (qr_payloads (job_events env1 out format (ticks w1) js)),
         (qr_payloads (job_events env2 out format (ticks w2) js)).
  split; [|split].
  { rewrite jobs_trace, qr_payloads_app. unfold announced. cbn [trace ticks].
    rewrite qr_payloads_app. cbn. rewrite app_nil_r. reflexivity. }
  { rewrite jobs_trace, qr_payloads_app. unfold announced. cbn [trace ticks].
    rewrite qr_payloads_app. cbn. rewrite app_nil_r. reflexivity. }
  rewrite !length_qr_payloads_job_events, !length_job_records.
  do 3 (split; [reflexivity|]). split.
  - intros i d1 d2. rewrite !qr_payloads_job_events.
    destruct (nth_error js i) as [j|]; cbn [option_map]; [|discriminate].
    intros [= <-] [= <-]. exists (payload_head j), payload_tail.
    split; apply payload_json_split.
  - intros i r1 r2 k. rewrite !nth_error_job_records.
    destruct (nth_error js i) as [j|]; cbn [option_map]; [|discriminate].
    intros [= <-] [= <-]. apply job_record_get_other.
Qed.

Lemma payload_json_deterministic_witness :
  exists ds1 ds2,
    qr_payloads (trace (snd demo_test_run)) = ([] ++ ds1)%list /\
    qr_payloads (trace (snd later_test_run)) = ([] ++ ds2)%list /\
    length ds1 = 2%nat /\ length ds2 = 2%nat.
Proof.
  destruct (payload_json_deterministic demo_env later_env demo_generator
              (test_args 2 "PNG") empty_world later_world
              demo_test_bins
              (match later_test_run with (Ok bins, _) => bins | _ => [] end)
              (snd demo_test_run) (snd later_test_run))
    as (ds1 & ds2 & H1 & H2 & L1 & L2 & _).
  - vm_compute. reflexivity.
  - vm_compute. reflexivity.
  - exists ds1, ds2. repeat split; assumption.
Defined.

(** ** Exit status *)

Lemma readonly_main :
  main readonly_env [] empty_world
  = (Raise (Exception "[Errno 13] Permission denied"), empty_world).
Proof. rewrite main_cases. reflexivity. Qed.

(** C6, as stated, fails: when the output directory cannot be created the
    exception leaves [main]; the driver neither catches nor logs it. *)
Lemma all_failures_caught_counterexample :
  ~ (succeeds readonly_env [] empty_world \/
     caught_and_logged readonly_env [] empty_world).
Proof.
  intros [(w' & H)|(msg & w' & t & H & _)];
    rewrite readonly_main in H; discriminate H.
Qed.

Example manifest_failure_is_caught :
  caught_and_logged full_disk_env [] empty_world /\
  fst (script full_disk_env [] empty_world) = 1.
Proof.
  split; [|vm_compute; reflexivity].
  exists "[Errno 28] No space left on device",
    (snd (main full_disk_env [] empty_world)),
    (removelast (trace (snd (main full_disk_env [] empty_world)))).
  split; vm_compute; reflexivity.
Qed.

Example output_dir_failure_exit :
  script readonly_env [] empty_world = (1, empty_world).
Proof. unfold script. rewrite readonly_main. reflexivity. Qed.

Example rejected_command_line_exit :
  script demo_env ["--format"; "GIF"] empty_world = (2, empty_world).
Proof. reflexivity. Qed.

(** C6, amended: the driver turns a failure of generation or of the manifest
    writer into a printed line and status 1, and success into status 0; a
    failure of [argparse] or of the creation of the output directory happens
    before the [try] block and leaves [main] as an exception. *)
Theorem exit_status env argv w :
  match parse_args env argv with
  | inr code =>
      main env argv w = (Raise (SystemExit code), w) /\
      script env argv w = (code, w)
  | inl args =>
      match init env (arg_output_dir args) w with
      | (Raise e, w1) =>
          main env argv w = (Raise e, w1) /\
          (exists msg, e = Exception msg) /\
          w1 = w /\ script env argv w = (1, w)
      | (Ok generator, w1) =>
          match main_try env generator args w1 with
          | (Ok _, w2) =>
              main env argv w = (Ok 0, w2) /\ script env argv w = (0, w2)
          | (Raise e, w2) =>
              exists msg,
                e = Exception msg /\
                main env argv w = (Ok 1, announced w2 (error_line msg)) /\
                script env argv w = (1, announced w2 (error_line msg))
          end
      end
  end.
Proof.
  unfold script. rewrite main_cases.
  destruct (parse_args env argv) as [args|code]; [|split; reflexivity].
  rewrite init_cases.
  destruct (path_exists w (arg_output_dir args)).
  - destruct (main_try env _ args w) as [[[]|e] w2] eqn:Ht; [split; reflexivity|].
    destruct (main_try_raises _ _ _ _ _ _ Ht) as [msg ->].
    exists msg. repeat split.
  - destruct (os_error env (arg_output_dir args)) as [msg|].
    + repeat split. exists msg. reflexivity.
    + destruct (main_try env _ args _) as [[[]|e] w2] eqn:Ht; [split; reflexivity|].
      destruct (main_try_raises _ _ _ _ _ _ Ht) as [msg ->].
      exists msg. repeat split.
Qed.

(** ** Geohash of a payload *)

(** C7: the geohash of a payload is the encoding of its latitude and
    longitude at precision 8, and has 8 characters. *)
Theorem payload_geohash env bin_id category lat lng w :
  exists payload w',
    create_bin_payload env bin_id category lat lng w = (Ok payload, w') /\
    Dict.get "latitude" payload = Some (PyFloat lat) /\
    Dict.get "longitude" payload = Some (PyFloat lng) /\
    Dict.get "geohash" payload = Some (PyStr (Geohash.encode lat lng 8)) /\
    String.length (Geohash.encode lat lng 8) = 8%nat.
Proof.
  eexists _, _. do 4 (split; [reflexivity|]).
  apply GeohashFacts.length_encode.
Qed.

Lemma sample_locations_valid location :
  In location SAMPLE_LOCATIONS ->
  valid_coordinates (loc_lat location) (loc_lng location).
Proof.
  intros H. repeat destruct H as [<-|H]; try destruct H;
    repeat split; apply Qle_bool_iff; reflexivity.
Qed.

Lemma jobs_locations args j :
  In j (jobs_of args) -> In (job_location j) SAMPLE_LOCATIONS.
Proof.
  unfold jobs_of. destruct (arg_test_only args); intros Hj.
  - apply in_map_iff in Hj as (i & <- & _). cbn [job_location test_job].
    apply nth_In. apply Nat.mod_upper_bound. discriminate.
  - apply in_map_iff in Hj as ([[idx location] category] & <- & Hp).
    cbn [job_location full_job].
    apply in_prod_iff in Hp as [Hp _]. eapply in_combine_r, Hp.
Qed.

Lemma In_job_records env out format js : forall t r,
  In r (job_records env out format t js) ->
  exists j now, In j js /\ r = job_record out format j now.
Proof.
  induction js as [|j js IH]; intros t r; cbn [job_records In]; [tauto|].
  intros [<-|H].
  - eexists _, _. split; [left; reflexivity|reflexivity].
  - destruct (IH _ _ H) as (j' & now & Hj & ->).
    eexists _, _. split; [right; exact Hj|reflexivity].
Qed.

Lemma decodes_near_fields (r : pydict) lat lng :
  valid_coordinates lat lng ->
  Dict.get "latitude" r = Some (PyFloat lat) ->
  Dict.get "longitude" r = Some (PyFloat lng) ->
  Dict.get "geohash" r = Some (PyStr (Geohash.encode lat lng 8)) ->
  decodes_near r.
Proof.
  intros [Hlat Hlng] Glat Glng Ggh.
  destruct (GeohashFacts.decode_encode lat lng Hlat Hlng)
    as (lat' & lon' & elat & elon & D & E).
  exists lat, lng, (Geohash.encode lat lng 8), lat', lon', elat, elon.
  repeat split; try assumption; apply E.
Qed.

(** C8: the geohash of a payload built for valid coordinates, and so of every
    payload a run builds, decodes to within the cell tolerance of the
    payload's latitude and longitude. *)
Theorem geohash_round_trip :
  (forall env bin_id category lat lng w,
     valid_coordinates lat lng ->
     exists payload w',
       create_bin_payload env bin_id category lat lng w = (Ok payload, w') /\
       decodes_near payload) /\
  (forall env self args w bins w' r,
     generate env self args w = (Ok bins, w') -> In r bins -> decodes_near r).
Proof.
  split.
  - intros env bin_id category lat lng w Hv.
    eexists _, _. split; [reflexivity|].
    apply (decodes_near_fields _ lat lng Hv); reflexivity.
  - intros env self args w bins w' r [-> _]%generate_inv Hr.
    apply In_job_records in Hr as (j & now & Hj & ->).
    apply (decodes_near_fields _ (loc_lat (job_location j)) (loc_lng (job_location j)));
      [|reflexivity..].
    apply sample_locations_valid, (jobs_locations args), Hj.
Qed.

Lemma geohash_round_trip_witness :
  valid_coordinates 37.7749 (-122.4194) /\
  exists payload w',
    create_bin_payload demo_env "BIN_000_RECYCLE" "recycle" 37.7749 (-122.4194)
      empty_world = (Ok payload, w') /\
    decodes_near payload.
Proof.
  assert (valid_coordinates 37.7749 (-122.4194)) as Hv.
  { repeat split; apply Qle_bool_iff; reflexivity. }
  split; [exact Hv|].
  exact (proj1 geohash_round_trip demo_env "BIN_000_RECYCLE" "recycle"
           37.7749%Q (-122.4194)%Q empty_world Hv).
Defined.

(** * Further properties of the script *)

(** ** Vocabulary for further properties *)

(** ** Bin identifiers of arbitrary indices *)

Lemma numeral_not_dash d a s :
  NilEmpty.string_of_uint d ++ String "_" a <> String "-" s.
Proof.
  destruct d; cbn [NilEmpty.string_of_uint];
    rewrite ?string_app_cons, ?string_app_nil_l; discriminate.
Qed.

Lemma format_03d_negative z :
  z < 0 ->
  PyStr.format_03d z
  = String "-" (NilEmpty.string_of_uint
      (pad (2 - String.length (PyStr.of_N (Z.abs_N z))) (N.to_uint (Z.abs_N z)))).
Proof.
  intros Hz. unfold PyStr.format_03d.
  destruct (Z.ltb_spec z 0) as [_|Hge]; [|lia].
  rewrite string_app_cons, string_app_nil_l, string_of_pad, of_N_digits.
  reflexivity.
Qed.

Lemma format_03d_nonnegative z :
  0 <= z ->
  PyStr.format_03d z
  = NilEmpty.string_of_uint
      (pad (3 - String.length (PyStr.of_N (Z.abs_N z))) (N.to_uint (Z.abs_N z))).
Proof.
  intros Hz. unfold PyStr.format_03d.
  destruct (Z.ltb_spec z 0) as [Hlt|_]; [lia|].
  rewrite string_app_nil_l, string_of_pad, of_N_digits. reflexivity.
Qed.

(** [f"{z:03d}_..."] determines the integer [z], whatever its sign. *)
Lemma format_03d_underscore_Z x y a b :
  PyStr.format_03d x ++ String "_" a = PyStr.format_03d y ++ String "_" b ->
  x = y.
Proof.
  destruct (Z.lt_ge_cases x 0) as [Hx|Hx], (Z.lt_ge_cases y 0) as [Hy|Hy].
  - rewrite !format_03d_negative by assumption. rewrite !string_app_cons.
    intros [= H%numeral_underscore]. apply (f_equal N.of_uint) in H.
    rewrite !of_uint_pad, !DecimalN.Unsigned.of_to in H. lia.
  - rewrite (format_03d_negative x), (format_03d_nonnegative y) by assumption.
    rewrite string_app_cons. intros H. symmetry in H.
    apply numeral_not_dash in H. destruct H.
  - rewrite (format_03d_negative y), (format_03d_nonnegative x) by assumption.
    rewrite string_app_cons. intros H.
    apply numeral_not_dash in H. destruct H.
  - rewrite !format_03d_nonnegative by assumption.
    intros H%numeral_underscore. apply (f_equal N.of_uint) in H.
    rewrite !of_uint_pad, !DecimalN.Unsigned.of_to in H. lia.
Qed.

(** X1: two bin identifiers are equal exactly when the indices are equal and
    the categories are equal up to case. *)
Theorem generate_bin_id_eq x y a b :
  generate_bin_id x a = generate_bin_id y b
  <-> x = y /\ PyStr.upper a = PyStr.upper b.
Proof.
  unfold generate_bin_id. split.
  - intros H. apply (inj (String.app "BIN_")) in H.
    pose proof (format_03d_underscore_Z _ _ _ _ H) as ->.
    split; [reflexivity|].
    apply (inj (String.app _)) in H. injection H as H. exact H.
  - intros [-> ->]. reflexivity.
Qed.

(** ** Sanitized location names *)

Lemma replace_removes a b s : a <> b -> mem_char a (PyStr.replace a b s) = false.
Proof.
  intros Hab. induction s as [|c s IH]; [reflexivity|].
  cbn [PyStr.replace PyStr.map_chars mem_char].
  change (PyStr.map_chars _ s) with (PyStr.replace a b s). rewrite IH.
  destruct (Ascii.eqb_spec c a) as [->|Hc].
  - destruct (Ascii.eqb_spec b a); [congruence|reflexivity].
  - destruct (Ascii.eqb_spec c a); [congruence|reflexivity].
Qed.

Lemma replace_keeps_absent a b c s :
  c <> b -> mem_char c s = false -> mem_char c (PyStr.replace a b s) = false.
Proof.
  intros Hcb. induction s as [|x s IH]; [reflexivity|].
  cbn [PyStr.replace PyStr.map_chars mem_char].
  change (PyStr.map_chars _ s) with (PyStr.replace a b s).
  intros [Hx Hs]%orb_false_iff. rewrite (IH Hs), orb_false_r.
  destruct (Ascii.eqb_spec x a).
  - destruct (Ascii.eqb_spec b c); [congruence|reflexivity].
  - exact Hx.
Qed.

Lemma length_replace a b s :
  String.length (PyStr.replace a b s) = String.length s.
Proof.
  induction s as [|c s IH]; [reflexivity|].
  cbn [PyStr.replace PyStr.map_chars String.length].
  change (PyStr.map_chars _ s) with (PyStr.replace a b s). rewrite IH. reflexivity.
Qed.

(** X2: the sanitized name of a location has neither a space nor a hyphen and
    is as long as the name. *)
Theorem safe_name_clean location :
  mem_char " " (safe_name location) = false /\
  mem_char "-" (safe_name location) = false /\
  String.length (safe_name location) = String.length (loc_name location).
Proof.
  unfold safe_name. split; [|split].
  - apply replace_keeps_absent; [discriminate|].
    apply replace_removes. discriminate.
  - apply replace_removes. discriminate.
  - rewrite !length_replace. reflexivity.
Qed.

(** ** Test mode at its edges *)

(** X3: a count of zero or less makes test mode announce itself and return no
    record: nothing is written, the clock is not read, nothing can fail. *)
Theorem test_mode_nonpositive env self count format w :
  count <= 0 ->
  exists w',
    generate_test_bins env self count format w = (Ok [], w') /\
    files w' = files w /\ dirs w' = dirs w /\ ticks w' = ticks w /\
    trace w' = (trace w ++ [EvPrint ("Generating " ++ PyStr.of_Z count
                                      ++ " test bins...")])%list.
Proof.
  intros Hc. unfold generate_test_bins, range.
  replace (Z.to_nat count) with 0%nat by lia.
  eexists. split; [reflexivity|]. repeat split.
Qed.

Lemma test_mode_nonpositive_witness :
  -3 <= 0 /\
  exists w',
    generate_test_bins readonly_env demo_generator (-3) "PNG" empty_world = (Ok [], w') /\
    files w' = files empty_world.
Proof.
  split; [lia|].
  destruct (test_mode_nonpositive readonly_env demo_generator (-3) "PNG"
              empty_world ltac:(lia)) as (w' & H & Hf & _).
  exists w'. split; assumption.
Defined.

(** X4: in test mode the category of a record is decided by its location:
    record [i] is about location [i mod 10] and category [(i mod 10) mod 5],
    so only ten of the fifty pairs of full mode ever occur. *)
Theorem test_mode_pairing env self count format w bins w' i r :
  generate_test_bins env self count format w = (Ok bins, w') ->
  nth_error bins i = Some r ->
  exists k location category,
    k = (i mod 10)%nat /\
    nth_error SAMPLE_LOCATIONS k = Some location /\
    nth_error CATEGORIES (k mod 5) = Some category /\
    Dict.get "location_name" r = Some (PyStr (loc_name location)) /\
    Dict.get "category" r = Some (PyStr category).
Proof.
  intros Hg Hr.
  pose (args := {| arg_output_dir := output_dir self; arg_format := format;
                   arg_test_only := true; arg_count := count |}).
  change (generate env self args w = (Ok bins, w')) in Hg.
  apply generate_inv in Hg as [-> _].
  rewrite nth_error_job_records in Hr.
  unfold jobs_of, args in Hr. cbn [arg_test_only arg_count] in Hr.
  rewrite nth_error_map in Hr.
  destruct (nth_error (range count) i) as [i'|] eqn:Hi; [|discriminate].
  assert (i' = i) as ->.
  { unfold range in Hi.
    assert (i < length (seq 0 (Z.to_nat count)))%nat as Hlt
      by (apply nth_error_Some; rewrite Hi; discriminate).
    rewrite length_seq in Hlt.
    rewrite (nth_error_nth' _ 0%nat) in Hi by (rewrite length_seq; exact Hlt).
    rewrite seq_nth in Hi by exact Hlt. injection Hi as Hi. lia. }
  injection Hr as <-.
  exists (i mod 10)%nat, (location_at (i mod 10)), (category_at (i mod 5)).
  split; [reflexivity|]. split; [apply (location_at_mod i)|].
  split.
  - replace ((i mod 10) mod 5)%nat with (i mod 5)%nat.
    + apply (category_at_mod i).
    + rewrite (Nat.div_mod_eq i 10) at 1.
      replace (10 * (i / 10) + i mod 10)%nat
        with (i mod 10 + 2 * (i / 10) * 5)%nat by lia.
      apply Nat.Div0.mod_add.
  - split; reflexivity.
Qed.

Lemma test_mode_pairing_witness :
  exists k location category,
    k = (1 mod 10)%nat /\
    nth_error SAMPLE_LOCATIONS k = Some location /\
    nth_error CATEGORIES (k mod 5) = Some category /\
    Dict.get "location_name" (nth 1 demo_test_bins []) = Some (PyStr (loc_name location)) /\
    Dict.get "category" (nth 1 demo_test_bins []) = Some (PyStr category).
Proof.
  apply (test_mode_pairing demo_env demo_generator 2 "PNG" empty_world
           demo_test_bins demo_test_world 1).
  - vm_compute. reflexivity.
  - reflexivity.
Defined.

(** ** Initialization *)

(** X5: a successful initialization leaves a path that exists, keeps every
    file, and is idempotent: initializing again changes nothing. *)
Theorem init_idempotent env out w generator w1 :
  init env out w = (Ok generator, w1) ->
  output_dir generator = out /\
  files w1 = files w /\
  (is_Some (files w1 !! out) \/ out ∈ dirs w1) /\
  init env out w1 = (Ok generator, w1).
Proof.
  rewrite init_cases. unfold path_exists at 1.
  destruct (files w !! out) as [c|] eqn:Hf.
  - intros [= <- <-]. split; [reflexivity|]. split; [reflexivity|].
    split; [left; rewrite Hf; eauto|].
    rewrite init_cases. unfold path_exists. rewrite Hf. reflexivity.
  - destruct (bool_decide (out ∈ dirs w)) eqn:Hd.
    + intros [= <- <-]. split; [reflexivity|]. split; [reflexivity|].
      split; [right; exact (proj1 (bool_decide_eq_true _) Hd)|].
      rewrite init_cases. unfold path_exists. rewrite Hf, Hd. reflexivity.
    + destruct (os_error env out) as [msg|]; [discriminate|].
      intros [= <- <-]. split; [reflexivity|]. split; [reflexivity|].
      assert (out ∈ dirs (created out w)) as Hin by (cbn; set_solver).
      split; [right; exact Hin|].
      rewrite init_cases. unfold path_exists. cbn [created files]. rewrite Hf.
      rewrite (proj2 (bool_decide_eq_true _) Hin). reflexivity.
Qed.

Lemma init_idempotent_witness :
  exists generator w1,
    init demo_env "out" empty_world = (Ok generator, w1) /\
    "out" ∈ dirs w1 /\
    init demo_env "out" w1 = (Ok generator, w1).
Proof.
  destruct (init demo_env "out" empty_world) as [[generator|e] w1] eqn:Hi;
    [|vm_compute in Hi; discriminate Hi].
  destruct (init_idempotent demo_env "out" empty_world generator w1 Hi)
    as (_ & Hf & [[c Hc]|Hd] & Hagain).
  - rewrite Hf in Hc. discriminate Hc.
  - exists generator, w1. repeat split; assumption.
Defined.

(** ** The QR renderer *)


(** ** A failure in the middle of a batch *)

Section Failure.

Variables (env : Env) (self : BinQRGenerator) (format : string).

Lemma run_jobs_raise js : forall acc w e w',
  foldM (run_job env self format) js acc w = (Raise e, w') ->
  exists msg k j,
    e = Exception msg /\ nth_error js k = Some j /\
    let wk := fold_left (job_world env (output_dir self) format) (firstn k js) w in
    job_fails env self format wk j msg /\ w' = job_started env wk j.
Proof.
  induction js as [|j js IH]; intros acc w e w'; [discriminate|].
  cbn [foldM]. unfold bind. rewrite run_job_cases.
  destruct (qr_image env _ _) as [img|msg] eqn:Hq.
  - destruct (os_error env _) as [msg|] eqn:Ho.
    + intros [= <- <-]. exists msg, 0%nat, j. cbn [firstn fold_left].
      repeat split. right. split; [eauto|exact Ho].
    + intros (msg & k & j' & -> & Hk & Hf & ->)%IH.
      exists msg, (S k), j'. repeat split; assumption.
  - intros [= <- <-]. exists msg, 0%nat, j. cbn [firstn fold_left].
    repeat split. left. exact Hq.
Qed.

End Failure.

Lemma firstn_In_of {A} (l : list A) k x : In x (firstn k l) -> In x l.
Proof.
  revert k. induction l as [|y l IH]; intros [|k]; cbn; try tauto.
  intros [->|H]; [left; reflexivity|right; eapply IH, H].
Qed.

(** X7: when generation fails, it fails inside one bin: the images of the
    bins before it are the only files written, the failing bin's payload was
    the last one handed to the QR library, the exception is an [Exception]
    that leaves the [try] body as it is, and the manifest is not touched. *)
Theorem first_failure_aborts env self args w e w' :
  generate env self args w = (Raise e, w') ->
  exists msg k,
    e = Exception msg /\
    (k < length (jobs_of args))%nat /\
    written_paths (trace w')
    = (written_paths (trace w)
       ++ map (job_filepath (output_dir self) (arg_format args))
              (firstn k (jobs_of args)))%list /\
    length (qr_payloads (trace w'))
      = (length (qr_payloads (trace w)) + S k)%nat /\
    files w' !! manifest_path (output_dir self)
      = files w !! manifest_path (output_dir self) /\
    main_try env self args w = (Raise e, w').
Proof.
  intros Hg. rewrite main_try_cases, Hg. rewrite generate_jobs in Hg.
  apply run_jobs_raise in Hg as (msg & k & j & -> & Hk & _ & ->).
  exists msg, k. split; [reflexivity|].
  split; [apply nth_error_Some; rewrite Hk; discriminate|].
  cbn [job_started trace files].
  split; [|split; [|split; [|reflexivity]]].
  - rewrite written_paths_app, jobs_trace, written_paths_app.
    rewrite written_paths_job_events. unfold announced. cbn [trace].
    rewrite written_paths_app. cbn. rewrite !app_nil_r. reflexivity.
  - rewrite qr_payloads_app, jobs_trace, qr_payloads_app.
    rewrite !length_app, length_qr_payloads_job_events. unfold announced.
    cbn [trace ticks]. rewrite qr_payloads_app, length_app. cbn.
    rewrite length_firstn.
    assert (k < length (jobs_of args))%nat
      by (apply nth_error_Some; rewrite Hk; discriminate).
    lia.
  - rewrite jobs_files_other; [reflexivity|].
    intros (j' & Hp & Hj)%in_map_iff.
    eapply job_filepath_not_manifest; [|exact Hp].
    eapply jobs_good, firstn_In_of, Hj.
Qed.

Lemma first_failure_aborts_witness :
  exists msg k,
    generate_test_bins flaky_env demo_generator 3 "PNG" empty_world
      = (Raise (Exception msg), snd flaky_run) /\
    (k < 3)%nat /\
    length (qr_payloads (trace (snd flaky_run))) = (0 + S k)%nat.
Proof.
  assert (generate_test_bins flaky_env demo_generator 3 "PNG" empty_world
          = (Raise (Exception "[Errno 5] Input/output error"), snd flaky_run))
    as Hrun by (vm_compute; reflexivity).
  destruct (first_failure_aborts flaky_env demo_generator (test_args 3 "PNG")
              empty_world _ _ Hrun)
    as (msg & k & He & Hk & _ & Hq & _).
  exists "[Errno 5] Input/output error", k.
  split; [exact Hrun|]. split; [exact Hk|exact Hq].
Defined.

(** ** What a run may touch *)

Lemma only_writes_under_refl out w : only_writes_under out w w.
Proof.
  split; [reflexivity|]. split; [auto|].
  exists []. rewrite app_nil_r. auto.
Qed.

Lemma only_writes_under_trans out w1 w2 w3 :
  only_writes_under out w1 w2 -> only_writes_under out w2 w3 ->
  only_writes_under out w1 w3.
Proof.
  intros (D1 & K1 & ps1 & T1 & U1 & F1) (D2 & K2 & ps2 & T2 & U2 & F2).
  split; [congruence|]. split; [auto|].
  exists (ps1 ++ ps2)%list. split; [rewrite T2, T1, app_assoc; reflexivity|].
  split; [apply Forall_app; auto|].
  intros p Hp. rewrite F2, F1; [reflexivity| |]; intros H; apply Hp, in_or_app; auto.
Qed.

(** A step that writes nothing. *)
Lemma only_writes_under_quiet out w w' :
  files w' = files w -> dirs w' = dirs w ->
  written_paths (trace w') = written_paths (trace w) ->
  only_writes_under out w w'.
Proof.
  intros Hf Hd Ht. split; [exact Hd|]. rewrite Hf. split; [auto|].
  exists []. rewrite app_nil_r. auto.
Qed.

(** A step that writes one file under [out]. *)
Lemma only_writes_under_write out w w' p c :
  under out p ->
  files w' = <[p := c]> (files w) -> dirs w' = dirs w ->
  written_paths (trace w') = (written_paths (trace w) ++ [p])%list ->
  only_writes_under out w w'.
Proof.
  intros Hu Hf Hd Ht. split; [exact Hd|]. rewrite Hf. split.
  - intros q Hq. destruct (decide (p = q)) as [->|Hne].
    + rewrite lookup_insert_eq. eauto.
    + rewrite lookup_insert_ne by exact Hne. exact Hq.
  - exists [p]. split; [exact Ht|]. split; [constructor; [exact Hu|constructor]|].
    intros q Hq. apply lookup_insert_ne. intros ->. apply Hq. left. reflexivity.
Qed.

Lemma under_join out c s :
  c <> "/"%char -> under out (os_path_join out (String c s)).
Proof.
  intros Hc. rewrite os_path_join_relative by exact Hc.
  destruct (orb _ _).
  - eexists. reflexivity.
  - eexists. rewrite string_app_assoc. reflexivity.
Qed.

Lemma under_job_filepath out format j :
  good_filename j = true -> under out (job_filepath out format j).
Proof.
  unfold good_filename, job_filepath.
  destruct (job_filename j) as [|c s]; [discriminate|]. intros Hg.
  rewrite string_app_cons. apply under_join.
  destruct (Ascii.eqb_spec c "/"); [discriminate|assumption].
Qed.

Lemma under_manifest_path out : under out (manifest_path out).
Proof. apply under_join. discriminate. Qed.

Lemma only_writes_under_job env out format w j :
  good_filename j = true ->
  only_writes_under out w (job_world env out format w j).
Proof.
  intros Hg. eapply only_writes_under_write.
  - apply under_job_filepath, Hg.
  - reflexivity.
  - reflexivity.
  - cbn [job_world trace]. rewrite written_paths_app. reflexivity.
Qed.

Lemma only_writes_under_jobs env out format js : forall w,
  (forall j, In j js -> good_filename j = true) ->
  only_writes_under out w (fold_left (job_world env out format) js w).
Proof.
  induction js as [|j js IH]; intros w Hg; cbn [fold_left].
  - apply only_writes_under_refl.
  - eapply only_writes_under_trans.
    + apply only_writes_under_job, Hg. left. reflexivity.
    + apply IH. intros j' Hj. apply Hg. right. exact Hj.
Qed.

Lemma only_writes_under_announced out lines : forall w,
  only_writes_under out w (fold_left announced lines w).
Proof.
  intros w. apply only_writes_under_quiet.
  - apply announced_files.
  - revert w. induction lines as [|l lines IH]; intros w; [reflexivity|].
    cbn [fold_left]. rewrite IH. reflexivity.
  - apply announced_written.
Qed.

(** X8: whatever happens in the [try] body of [main], it creates and removes
    no directory, removes no file, and changes no file other than those it
    writes, all of which are spelled under the output directory. *)
Theorem run_only_writes_under env self args w :
  only_writes_under (output_dir self) w (snd (main_try env self args w)).
Proof.
  rewrite main_try_cases.
  assert (only_writes_under (output_dir self) w (announced w (banner args))) as H0.
  { apply only_writes_under_quiet; try reflexivity.
    unfold announced. cbn [trace]. rewrite written_paths_app. apply app_nil_r. }
  destruct (generate env self args w) as [[bins|e] w1] eqn:Hg.
  - apply generate_inv in Hg as [-> ->].
    assert (only_writes_under (output_dir self) w
              (fold_left (job_world env (output_dir self) (arg_format args))
                 (jobs_of args) (announced w (banner args)))) as H1.
    { eapply only_writes_under_trans; [exact H0|].
      apply only_writes_under_jobs. apply jobs_good. }
    rewrite save_bin_manifest_cases.
    destruct (os_error env _) as [msg|]; cbn [snd].
    + eapply only_writes_under_trans; [exact H1|].
      apply only_writes_under_quiet; reflexivity.
    + eapply only_writes_under_trans; [exact H1|].
      eapply only_writes_under_trans; [|apply only_writes_under_announced].
      eapply only_writes_under_write.
      * apply under_manifest_path.
      * reflexivity.
      * reflexivity.
      * cbn [manifest_world trace]. rewrite written_paths_app. reflexivity.
  - cbn [snd]. rewrite generate_jobs in Hg.
    apply run_jobs_raise in Hg as (msg & k & j & _ & _ & _ & ->).
    eapply only_writes_under_trans; [exact H0|].
    eapply only_writes_under_trans.
    + apply only_writes_under_jobs. intros j' Hj.
      eapply jobs_good, firstn_In_of, Hj.
    + apply only_writes_under_quiet; try reflexivity.
      cbn [job_started trace]. rewrite written_paths_app. apply app_nil_r.
Qed.

(** ** Records and their images *)

Lemma full_filenames_NoDup : List.NoDup (map job_filename (map full_job all_pairs)).
Proof. apply NoDup_ListNoDup, (bool_decide_unpack _). vm_compute. exact I. Qed.

Lemma NoDup_map_injective_on {A B} (f g : A -> B) (l : list A) :
  (forall x y, In x l -> In y l -> g x = g y -> f x = f y) ->
  List.NoDup (map f l) -> List.NoDup (map g l).
Proof.
  intros Hinj. induction l as [|x l IH]; cbn [map]; [constructor|].
  intros Hnd. inversion Hnd as [|? ? Hx Hl]; subst. constructor.
  - intros (y & Hy & Hin)%in_map_iff. apply Hx.
    rewrite <- (Hinj y x) by (cbn; auto). apply in_map, Hin.
  - apply IH; [|exact Hl]. intros a b Ha Hb. apply Hinj; right; assumption.
Qed.

Lemma jobs_filepaths_NoDup args out format :
  List.NoDup (map (job_filepath out format) (jobs_of args)).
Proof.
  unfold jobs_of. destruct (arg_test_only args) eqn:Hm.
  - apply test_filepaths_NoDup.
  - apply (NoDup_map_injective_on job_filename); [|apply full_filenames_NoDup].
    intros x y Hx Hy. apply job_filepath_inj.
    + apply (jobs_good args). unfold jobs_of. rewrite Hm. exact Hx.
    + apply (jobs_good args). unfold jobs_of. rewrite Hm. exact Hy.
Qed.

Section Images.

Variables (env : Env) (self : BinQRGenerator) (format : string).

Lemma run_jobs_rendered js : forall acc w bins w' i j,
  foldM (run_job env self format) js acc w = (Ok bins, w') ->
  nth_error js i = Some j ->
  let data := Json.dumps_compact
                (PyDict (job_payload j (clock env (ticks w + i)))) in
  let path := job_filepath (output_dir self) format j in
  qr_image env data path = inl (image_of env data path).
Proof.
  induction js as [|j0 js IH]; intros acc w bins w' i j; [destruct i; discriminate|].
  cbn [foldM]. unfold bind. rewrite run_job_cases.
  destruct (qr_image env _ _) as [img|msg] eqn:Hq; [|discriminate].
  destruct (os_error env _) as [msg|]; [discriminate|].
  intros Hrest. destruct i as [|i]; cbn [nth_error].
  - intros [= <-]. rewrite Nat.add_0_r. unfold image_of. rewrite Hq. reflexivity.
  - intros Hj. pose proof (IH _ _ _ _ _ _ Hrest Hj) as H.
    cbn [job_world ticks] in H. rewrite Nat.add_succ_comm in H. exact H.
Qed.

Lemma jobs_files_last js : forall w i j,
  List.NoDup (map (job_filepath (output_dir self) format) js) ->
  nth_error js i = Some j ->
  let data := Json.dumps_compact
                (PyDict (job_payload j (clock env (ticks w + i)))) in
  let path := job_filepath (output_dir self) format j in
  files (fold_left (job_world env (output_dir self) format) js w) !! path
  = Some (image_of env data path).
Proof.
  induction js as [|j0 js IH]; intros w i j Hnd; [destruct i; discriminate|].
  cbn [map] in Hnd. inversion Hnd as [|? ? Hx Hl]; subst.
  destruct i as [|i]; cbn [nth_error fold_left].
  - intros [= <-]. rewrite jobs_files_other by exact Hx.
    cbn [job_world files]. rewrite Nat.add_0_r. apply lookup_insert_eq.
  - intros Hj. pose proof (IH (job_world env (output_dir self) format w j0) i j Hl Hj) as H.
    cbn [job_world ticks] in H. rewrite Nat.add_succ_comm in H. exact H.
Qed.

End Images.

(** X9: when generation returns, the image paths of the records are pairwise
    different and none is the manifest's, and at each of them lies the image
    the library made of the payload of that very record. *)
Theorem images_match_records env self args w bins w1 :
  generate env self args w = (Ok bins, w1) ->
  exists paths datas,
    map (Dict.get "qr_file") bins = map (fun p => Some (PyStr p)) paths /\
    List.NoDup paths /\
    ~ In (manifest_path (output_dir self)) paths /\
    qr_payloads (trace w1) = (qr_payloads (trace w) ++ datas)%list /\
    length datas = length bins /\
    forall i p d,
      nth_error paths i = Some p -> nth_error datas i = Some d ->
      exists img, qr_image env d p = inl img /\ files w1 !! p = Some img.
Proof.
  intros Hg. pose proof Hg as [-> ->]%generate_inv. rewrite generate_jobs in Hg.
  set (out := output_dir self) in *. set (format := arg_format args) in *.
  exists (map (job_filepath out format) (jobs_of args)),
         (qr_payloads (job_events env out format (ticks w) (jobs_of args))).
  split; [apply run_qr_files|].
  split; [apply jobs_filepaths_NoDup|].
  split; [apply manifest_not_image|].
  split.
  { rewrite jobs_trace, qr_payloads_app. unfold announced. cbn [trace ticks].
    rewrite qr_payloads_app. cbn. rewrite app_nil_r. reflexivity. }
  split; [rewrite length_qr_payloads_job_events, length_job_records; reflexivity|].
  intros i p d. rewrite nth_error_map, qr_payloads_job_events.
  destruct (nth_error (jobs_of args) i) as [j|] eqn:Hj; cbn [option_map]; [|discriminate].
  intros [= <-] [= <-]. eexists. split.
  - apply (run_jobs_rendered env self format _ _ _ _ _ _ _ Hg Hj).
  - apply (jobs_files_last env self format _ (announced w (banner args)) i j).
    + apply jobs_filepaths_NoDup.
    + exact Hj.
Qed.

Lemma images_match_records_witness :
  exists paths datas,
    map (Dict.get "qr_file") demo_test_bins = map (fun p => Some (PyStr p)) paths /\
    List.NoDup paths /\
    qr_payloads (trace demo_test_world) = ([] ++ datas)%list /\
    length datas = 2%nat.
Proof.
  destruct (images_match_records demo_env demo_generator (test_args 2 "PNG")
              empty_world demo_test_bins demo_test_world)
    as (paths & datas & Hp & Hn & _ & Hd & Hl & _).
  - vm_compute. reflexivity.
  - exists paths, datas. repeat split; assumption.
Defined.

(** X10: when generation returns, every record has the same ten keys in the
    same order, version "1.0", and fields that fit together: [qr_file] is
    [<output_dir>/<filename>.<format.lower()>] for the record's [filename],
    and [filename] ends in [_<category>_<bin_id>] for the record's
    [category] and [bin_id]. *)
Theorem record_schema env self args w bins w1 r :
  generate env self args w = (Ok bins, w1) -> In r bins ->
  map fst r = record_keys /\
  Dict.get "version" r = Some (PyStr "1.0") /\
  exists bin_id category filename stem,
    Dict.get "bin_id" r = Some (PyStr bin_id) /\
    Dict.get "category" r = Some (PyStr category) /\
    Dict.get "filename" r = Some (PyStr filename) /\
    filename = stem ++ "_" ++ category ++ "_" ++ bin_id /\
    Dict.get "qr_file" r
    = Some (PyStr (os_path_join (output_dir self)
                     (filename ++ "." ++ PyStr.lower (arg_format args)))).
Proof.
  intros [-> _]%generate_inv Hr.
  apply In_job_records in Hr as (j & now & Hj & ->).
  split; [reflexivity|]. split; [reflexivity|].
  exists (job_bin_id j), (job_category j), (job_filename j).
  unfold jobs_of in Hj. destruct (arg_test_only args).
  - apply in_map_iff in Hj as (i & <- & _).
    exists ("test_" ++ PyStr.format_03d (Z.of_nat i)).
    repeat split.
  - apply in_map_iff in Hj as ([[idx location] category] & <- & _).
    exists (safe_name location). repeat split.
Qed.

Lemma record_schema_witness :
  map fst (nth 0 demo_test_bins []) = record_keys /\
  Dict.get "version" (nth 0 demo_test_bins []) = Some (PyStr "1.0").
Proof.
  destruct (record_schema demo_env demo_generator (test_args 2 "PNG")
              empty_world demo_test_bins demo_test_world (nth 0 demo_test_bins []))
    as (Hk & Hv & _).
  - vm_compute. reflexivity.
  - left. reflexivity.
  - split; assumption.
Defined.

(** X11: the clock is read once per record and once for the manifest: record
    [i] carries the [i]-th reading of the run, and the manifest written
    afterwards carries the reading that follows the last record's. *)
Theorem timestamps_in_order env self args w bins w1 :
  generate env self args w = (Ok bins, w1) ->
  ticks w1 = (ticks w + length bins)%nat /\
  (forall i r, nth_error bins i = Some r ->
     Dict.get "generated_at" r = Some (PyStr (clock env (ticks w + i)))) /\
  (forall path w2,
     save_bin_manifest env self bins w1 = (Ok path, w2) ->
     ticks w2 = (ticks w + length bins + 1)%nat /\
     exists m,
       files w2 !! path = Some (Json.dumps_indent2 (PyDict m)) /\
       Dict.get "generated_at" m
       = Some (PyStr (clock env (ticks w + length bins))) /\
       Dict.get "bins" m = Some (PyList (map PyDict bins))).
Proof.
  intros [-> ->]%generate_inv. rewrite length_job_records.
  assert (ticks (fold_left (job_world env (output_dir self) (arg_format args))
                   (jobs_of args) (announced w (banner args)))
          = (ticks w + length (jobs_of args))%nat) as Ht.
  { rewrite jobs_ticks. reflexivity. }
  split; [exact Ht|]. split.
  - intros i r. rewrite nth_error_job_records.
    destruct (nth_error (jobs_of args) i) as [j|]; cbn [option_map]; [|discriminate].
    intros [= <-]. reflexivity.
  - intros path w2. rewrite save_bin_manifest_cases.
    destruct (os_error env _) as [msg|]; [discriminate|].
    intros [= <- <-]. cbn [manifest_world ticks files]. split; [lia|].
    eexists. split; [apply lookup_insert_eq|].
    unfold manifest_json. rewrite Ht. split; reflexivity.
Qed.

Lemma timestamps_in_order_witness :
  ticks demo_test_world = (ticks empty_world + length demo_test_bins)%nat /\
  Dict.get "generated_at" (nth 1 demo_test_bins [])
  = Some (PyStr (clock demo_env 1)).
Proof.
  destruct (timestamps_in_order demo_env demo_generator (test_args 2 "PNG")
              empty_world demo_test_bins demo_test_world)
    as (Ht & Hr & _).
  - vm_compute. reflexivity.
  - split; [exact Ht|]. apply (Hr 1%nat). reflexivity.
Defined.

(** ** What exit status 0 means *)

Lemma main_returns_zero env argv w args w' :
  parse_args env argv = inl args ->
  script env argv w = (0, w') ->
  exists generator w1,
    init env (arg_output_dir args) w = (Ok generator, w1) /\
    output_dir generator = arg_output_dir args /\
    main_try env generator args w1 = (Ok tt, w').
Proof.
  intros Hp. unfold script. rewrite main_cases, Hp.
  destruct (init env (arg_output_dir args) w) as [[generator|e] w1] eqn:Hi.
  - destruct (main_try env generator args w1) as [[[]|e] w2] eqn:Ht.
    + intros [= <-]. exists generator, w1. split; [reflexivity|].
      split; [|exact Ht].
      rewrite init_cases in Hi.
      destruct (path_exists w _); [injection Hi as <- _; reflexivity|].
      destruct (os_error env _); [discriminate|].
      injection Hi as <- _. reflexivity.
    + destruct (main_try_raises _ _ _ _ _ _ Ht) as [msg ->]. discriminate.
  - rewrite init_cases in Hi. destruct (path_exists w _); [discriminate|].
    destruct (os_error env _); [|discriminate].
    injection Hi as <- <-. discriminate.
Qed.

(** X12: when the command line parses and the process exits with status 0,
    the manifest file exists, lists as many records as the mode asks for (50,
    or the count of test mode), and the image file of every listed record
    exists. *)
Theorem exit_zero_guarantee env argv w args w' :
  parse_args env argv = inl args ->
  script env argv w = (0, w') ->
  exists bins now,
    files w' !! manifest_path (arg_output_dir args)
      = Some (Json.dumps_indent2 (PyDict (manifest now bins))) /\
    length bins
      = (if arg_test_only args then Z.to_nat (arg_count args) else 50%nat) /\
    Forall (fun r => exists p, Dict.get "qr_file" r = Some (PyStr p) /\
                               is_Some (files w' !! p)) bins.
Proof.
  intros Hp Hs.
  destruct (main_returns_zero env argv w args w' Hp Hs)
    as (generator & w1 & _ & Hout & Ht).
  rewrite main_try_cases in Ht.
  destruct (generate env generator args w1) as [[bins|e] wg] eqn:Hg; [|discriminate].
  pose proof Hg as [Hb Hw]%generate_inv.
  rewrite save_bin_manifest_cases in Ht.
  destruct (os_error env _) as [msg|]; [discriminate|].
  injection Ht as <-. rewrite Hout in *.
  exists bins, (clock env (ticks wg)). split; [|split].
  - cbn [announced manifest_world files]. apply lookup_insert_eq.
  - rewrite Hb, length_job_records. unfold jobs_of.
    destruct (arg_test_only args); rewrite length_map; [apply length_seq|reflexivity].
  - apply List.Forall_forall. intros r Hr. rewrite Hb in Hr.
    apply In_job_records in Hr as (j & t & Hj & ->).
    exists (job_filepath (arg_output_dir args) (arg_format args) j).
    split; [reflexivity|].
    cbn [announced manifest_world files].
    rewrite lookup_insert_ne.
    + rewrite Hw. apply jobs_files_written, in_map, Hj.
    + intros H. eapply job_filepath_not_manifest; [eapply jobs_good, Hj|].
      symmetry. exact H.
Qed.

Lemma exit_zero_guarantee_witness :
  script quick_env [] empty_world = (0, snd quick_exit) /\
  exists bins now,
    files (snd quick_exit) !! "out/bin_manifest.json"
      = Some (Json.dumps_indent2 (PyDict (manifest now bins))) /\
    length bins = 2%nat.
Proof.
  assert (script quick_env [] empty_world = (0, snd quick_exit)) as Hs
    by (vm_compute; reflexivity).
  split; [exact Hs|].
  destruct (exit_zero_guarantee quick_env [] empty_world _ _ eq_refl Hs)
    as (bins & now & Hm & Hl & _).
  exists bins, now. split; assumption.
Defined.

(** ** Growing the count, and running again *)

Lemma firstn_job_records env out format js : forall t k,
  firstn k (job_records env out format t js)
  = job_records env out format t (firstn k js).
Proof.
  induction js as [|j js IH]; intros t [|k]; try reflexivity.
  cbn [job_records firstn]. rewrite IH. reflexivity.
Qed.

Lemma firstn_seq_min k : forall a n, firstn k (seq a n) = seq a (Nat.min k n).
Proof.
  induction k as [|k IH]; intros a [|n]; try reflexivity.
  cbn [seq firstn Nat.min]. rewrite IH. reflexivity.
Qed.

(** X13: a larger count only appends: the records of test mode with count [n]
    are the first [n] records of test mode with a count [m >= n] started in
    the same world. *)
Theorem test_mode_prefix env self format n m w bins_n bins_m wn wm :
  n <= m ->
  generate_test_bins env self n format w = (Ok bins_n, wn) ->
  generate_test_bins env self m format w = (Ok bins_m, wm) ->
  bins_n = firstn (Z.to_nat n) bins_m.
Proof.
  intros Hnm Hn Hm.
  pose (args k := {| arg_output_dir := output_dir self; arg_format := format;
                     arg_test_only := true; arg_count := k |}).
  change (generate env self (args n) w = (Ok bins_n, wn)) in Hn.
  change (generate env self (args m) w = (Ok bins_m, wm)) in Hm.
  apply generate_inv in Hn as [-> _]. apply generate_inv in Hm as [-> _].
  rewrite firstn_job_records. f_equal.
  unfold jobs_of, args, range. cbn [arg_test_only arg_count].
  rewrite firstn_map, firstn_seq_min. do 2 f_equal. lia.
Qed.

Lemma test_mode_prefix_witness :
  1 <= 2 /\
  (match fst demo_one_run with Ok bins => bins | _ => [] end)
  = firstn 1 demo_test_bins.
Proof.
  split; [lia|].
  apply (test_mode_prefix demo_env demo_generator "PNG" 1 2 empty_world
           _ _ (snd demo_one_run) demo_test_world).
  - lia.
  - vm_compute. reflexivity.
  - vm_compute. reflexivity.
Defined.

Lemma jobs_files_present env out format js p : forall w,
  is_Some (files (fold_left (job_world env out format) js w) !! p)
  <-> is_Some (files w !! p) \/ In p (map (job_filepath out format) js).
Proof.
  intros w.
  destruct (in_dec string_dec p (map (job_filepath out format) js)) as [Hin|Hout].
  - split; [auto|]. intros _. apply jobs_files_written, Hin.
  - rewrite jobs_files_other by exact Hout. tauto.
Qed.

Lemma main_try_returns env self args w w' :
  main_try env self args w = (Ok tt, w') ->
  forall p,
    is_Some (files w' !! p)
    <-> is_Some (files w !! p)
        \/ In p (map (job_filepath (output_dir self) (arg_format args)) (jobs_of args))
        \/ p = manifest_path (output_dir self).
Proof.
  rewrite main_try_cases.
  destruct (generate env self args w) as [[bins|e] wg] eqn:Hg; [|discriminate].
  apply generate_inv in Hg as [-> ->].
  rewrite save_bin_manifest_cases.
  destruct (os_error env _) as [msg|]; [discriminate|].
  intros [= <-] p. cbn [announced manifest_world files].
  destruct (decide (manifest_path (output_dir self) = p)) as [<-|Hne].
  - rewrite lookup_insert_eq. split; [auto|eauto].
  - rewrite lookup_insert_ne by exact Hne. rewrite jobs_files_present.
    cbn [announced files]. split; [tauto|].
    intros [H|[H|H]]; [auto|auto|congruence].
Qed.

(** X14: running again with the same generator and arguments overwrites: after
    the second successful run exactly the files of the first are there. *)
Theorem rerun_adds_no_file env1 env2 self args w w1 w2 :
  main_try env1 self args w = (Ok tt, w1) ->
  main_try env2 self args w1 = (Ok tt, w2) ->
  forall p, is_Some (files w2 !! p) <-> is_Some (files w1 !! p).
Proof.
  intros H1 H2 p.
  rewrite (main_try_returns _ _ _ _ _ H2 p), (main_try_returns _ _ _ _ _ H1 p).
  tauto.
Qed.

Lemma rerun_adds_no_file_witness :
  is_Some (files (snd second_run) !! "out/bin_manifest.json")
  <-> is_Some (files (snd first_run) !! "out/bin_manifest.json").
Proof.
  apply (rerun_adds_no_file demo_env later_env demo_generator (test_args 2 "PNG")
           empty_world (snd first_run) (snd second_run)).
  - vm_compute. reflexivity.
  - vm_compute. reflexivity.
Defined.
